(** * HotelDeskPro: the booking slice of [app.py]

    A shallow embedding of the Flask views [clients], [rooms], [bookings]
    and [invoice] of [src/app.py], of the [login_required] decorator and of
    the SQLite store they read and write, followed by the properties of
    the booking lifecycle.

    The store is SQLite and the views are Python, so some pieces of the
    two are written out first, because the views' results depend on them:
    SQLite's column affinity (a form field is a [str]; stored in a REAL
    column it becomes a double when it reads as a number) with the way
    SQLite reads a decimal text, Python's [float] arithmetic and [repr],
    and [datetime.strptime] with the format ["%Y-%m-%d"]. They follow
    SQLite 3.40 on x86-64 and Python 3.11.

    Where the model stops:
    - A Flask session travels with each request, so a request here
      carries its session and the views behind [login_required] only ask
      whether it holds [user_id]; [login] and [logout] hand back the
      session the next request carries. The password check of werkzeug
      is a parameter.
    - A request is a GET or a POST. What Flask answers by itself to the
      other methods (HEAD as a GET without its body, OPTIONS) is not
      modelled.
    - An invoice is the list of flowables handed to
      [SimpleDocTemplate.build]; how reportlab lays them out into PDF
      bytes is not modelled, nor how it parses a paragraph text that holds
      markup. The file is written and sent from the directory the
      application runs in.
    - Strings are the UTF-8 bytes of a [str].
    - Rowids are unbounded integers: the 64-bit ceiling of SQLite's rowid
      is not modelled.
    - A call into the database can fail because the database is locked
      or on its own; other failures of the machine (the file system when
      the PDF is written, memory) are not modelled. *)

From Stdlib Require Import ZArith QArith Qround String Ascii List Lia Bool.
From Stdlib Require Import Sorted.
From Stdlib Require Import DecimalString DecimalPos.
From Stdlib Require Import Floats.SpecFloat.
From stdpp Require Import gmap strings list.

Open Scope string_scope.
Open Scope Z_scope.

(** ** Characters and decimal digits *)

Module Chars.

Definition code (c : ascii) : Z := Z.of_N (N_of_ascii c).

Definition is_digit (c : ascii) : bool := (48 <=? code c) && (code c <=? 57).

(** The white space of SQLite's [sqlite3Isspace]: space, \t, \n, \v, \f, \r. *)
Definition is_space (c : ascii) : bool :=
  (code c =? 32) || ((9 <=? code c) && (code c <=? 13)).

Definition digit_val (c : ascii) : Z := code c - 48.

(** The number a run of decimal digits denotes, most significant first. *)
Definition digits_val (ds : list ascii) : Z :=
  fold_left (fun acc c => 10 * acc + digit_val c) ds 0.

Fixpoint span_digits (l : list ascii) : list ascii * list ascii :=
  match l with
  | c :: r =>
      if is_digit c then let '(ds, rest) := span_digits r in (c :: ds, rest)
      else ([], l)
  | [] => ([], [])
  end.

Fixpoint skip_spaces (l : list ascii) : list ascii :=
  match l with
  | c :: r => if is_space c then skip_spaces r else l
  | [] => []
  end.

(** Python's [str(n)] for an [int]. *)
Definition str_of_Z (n : Z) : string :=
  match n with
  | Z0 => "0"
  | Zpos p => NilEmpty.string_of_uint (Pos.to_uint p)
  | Zneg p => "-" ++ NilEmpty.string_of_uint (Pos.to_uint p)
  end.

Fixpoint zeros (n : nat) : string :=
  match n with O => "" | S k => String "0" (zeros k) end.

(** Python's [s * n] for a [str]: [n] copies, none when [n <= 0]. *)
Fixpoint repeat_string (s : string) (n : nat) : string :=
  match n with O => "" | S k => s ++ repeat_string s k end.

Fixpoint strip_trailing_zeros_rev (l : list ascii) : list ascii :=
  match l with
  | c :: r => if Ascii.eqb c "0" then strip_trailing_zeros_rev r else l
  | [] => []
  end.

End Chars.

(** ** Python floats: IEEE 754 binary64

    A Python [float] and an SQLite REAL are both a C [double]. The model is
    the Standard Library's [spec_float] at precision 53: every operation
    rounds to nearest, ties to even. *)

Module PyFloat.

Definition prec : Z := 53.
Definition emax : Z := 1024.

Definition float := spec_float.

Definition mul (x y : float) : float := SFmul prec emax x y.

(** Python's [float(n)] for an [int], as [float * int] applies to the
    [int] operand. *)
Definition of_Z (n : Z) : float := binary_normalize prec emax n 0 false.

Definition is_nan (x : float) : bool :=
  match x with S754_nan => true | _ => false end.

(** The double nearest to [(-1)^neg * m * 10^e]: how Python and a C
    compiler read a decimal literal. *)
Definition of_decimal (neg : bool) (m : Z) (e : Z) : float :=
  match m with
  | Zpos p =>
      match e with
      | Zneg q =>
          let '(mz, ez, lz) :=
            SFdiv_core_binary prec emax (Zpos p) 0 (10 ^ Zpos q) 0 in
          binary_round_aux prec emax neg mz ez lz
      | _ => binary_round prec emax neg (Z.to_pos (Zpos p * 10 ^ e)) 0
      end
  | _ => S754_zero neg
  end.

(** The exact value of a finite float. *)
Definition to_Q (x : float) : option Q :=
  match x with
  | S754_zero _ => Some 0%Q
  | S754_finite s m e =>
      let v := (inject_Z (Zpos m) * Qpower 2 e)%Q in
      Some (if s then Qopp v else v)
  | _ => None
  end.

Definition eqb (x y : float) : bool :=
  match x, y with
  | S754_zero a, S754_zero b => Bool.eqb a b
  | S754_infinity a, S754_infinity b => Bool.eqb a b
  | S754_nan, S754_nan => true
  | S754_finite a m e, S754_finite b n f =>
      Bool.eqb a b && Pos.eqb m n && Z.eqb e f
  | _, _ => false
  end.


(** *** [repr]

    [repr(x)] is the shortest decimal string that reads back as [x]
    (and the closest to [x] among the shortest), laid out in fixed
    notation when the decimal point falls within [-4 < decpt <= 16]
    and in exponent notation otherwise. *)

(** The largest [p] below the start with [10^p <= x], for [x > 0]. *)
Fixpoint dec_exp (fuel : nat) (p : Z) (x : Q) : Z :=
  match fuel with
  | O => p
  | S f => if Qle_bool (Qpower 10 p) x then p else dec_exp f (p - 1) x
  end.

Definition reads_back (x : float) (d k : Z) : bool :=
  eqb (of_decimal false d k) x.

(** The [n]-digit candidates around [x]: the decimal just below and
    the one just above, the closer one first. *)
Definition candidates (xq : Q) (k : Z) : list Z :=
  let scaled := (xq / Qpower 10 k)%Q in
  let lo := Qfloor scaled in
  let hi := lo + 1 in
  match Qcompare (scaled - inject_Z lo) (inject_Z hi - scaled) with
  | Lt => [lo; hi]
  | Gt => [hi; lo]
  | Eq => if Z.even lo then [lo; hi] else [hi; lo]
  end.

Fixpoint shortest (fuel : nat) (n : Z) (x : float) (xq : Q) (p : Z)
  : Z * Z :=
  let k := p + 1 - n in
  match List.filter (fun d => reads_back x d k) (candidates xq k) with
  | d :: _ => (d, k)
  | [] =>
      match fuel with
      | O => (Qfloor (xq / Qpower 10 k)%Q, k)
      | S f => shortest f (n + 1) x xq p
      end
  end.

(** The digits of [|x|] without trailing zeros, and [decpt] with
    [|x| = 0.digits * 10^decpt]. *)
Definition digits_decpt (x : float) (xq : Q) : list ascii * Z :=
  let p := dec_exp 640 309 xq in
  let '(d, k) := shortest 16 1 x xq p in
  let ds := list_ascii_of_string (Chars.str_of_Z d) in
  let ds' := rev (Chars.strip_trailing_zeros_rev (rev ds)) in
  (ds', k + Z.of_nat (length ds)).

Definition layout (ds : list ascii) (decpt : Z) : string :=
  let nd := Z.of_nat (length ds) in
  if (decpt <=? -4) || (16 <? decpt) then
    let e := decpt - 1 in
    let es := Chars.str_of_Z (Z.abs e) in
    let es2 := if Z.abs e <? 10 then "0" ++ es else es in
    let frac := match ds with
                | _ :: (_ :: _) as r => "." ++ string_of_list_ascii r
                | _ => ""
                end in
    string_of_list_ascii (take 1 ds) ++ frac ++ "e"
      ++ (if e <? 0 then "-" else "+") ++ es2
  else if decpt <=? 0 then
    "0." ++ Chars.zeros (Z.to_nat (- decpt)) ++ string_of_list_ascii ds
  else if decpt <? nd then
    string_of_list_ascii (take (Z.to_nat decpt) ds) ++ "."
      ++ string_of_list_ascii (drop (Z.to_nat decpt) ds)
  else
    string_of_list_ascii ds ++ Chars.zeros (Z.to_nat (decpt - nd)) ++ ".0".

Definition repr (x : float) : string :=
  match x with
  | S754_nan => "nan"
  | S754_infinity s => if s then "-inf" else "inf"
  | S754_zero s => if s then "-0.0" else "0.0"
  | S754_finite s m e =>
      let ax := S754_finite false m e in
      let xq := (inject_Z (Zpos m) * Qpower 2 e)%Q in
      let '(ds, decpt) := digits_decpt ax xq in
      (if s then "-" else "") ++ layout ds decpt
  end.

End PyFloat.

(** ** SQLite values and column affinity *)

Module Sql.

(** A stored value, and equally the Python object the [sqlite3] module
    hands back for it: NULL / [None], INTEGER / [int], REAL / [float],
    TEXT / [str]. *)
Inductive value :=
| VNull
| VInt (n : Z)
| VReal (r : PyFloat.float)
| VText (s : string).

(** A numeric literal as [sqlite3AtoF] scans it: optional white space, an
    optional sign, digits with an optional point (at least one digit in
    all), an optional exponent with at least one digit, optional white
    space. [lit_int] is set when there is neither point nor exponent. *)
Record numlit := NumLit {
  lit_neg : bool;
  lit_digits : list ascii;
  lit_frac : list ascii;
  lit_exp : Z;
  lit_int : bool
}.

Definition parse_sign (l : list ascii) : bool * list ascii :=
  match l with
  | c :: r =>
      if Ascii.eqb c "-" then (true, r)
      else if Ascii.eqb c "+" then (false, r)
      else (false, l)
  | [] => (false, [])
  end.

(** The exponent part: [None] when an [e] is not followed by digits. The
    exponent saturates at 10000 as in the C code. *)
Definition parse_exponent (l : list ascii) : option (Z * bool * list ascii) :=
  match l with
  | c :: r =>
      if Ascii.eqb c "e" || Ascii.eqb c "E" then
        let '(eneg, r1) := parse_sign r in
        let '(eds, r2) := Chars.span_digits r1 in
        match eds with
        | [] => None
        | _ =>
            let e := fold_left
                       (fun acc d =>
                          if acc <? 10000 then 10 * acc + Chars.digit_val d
                          else 10000) eds 0 in
            Some (if eneg then - e else e, true, r2)
        end
      else Some (0, false, l)
  | [] => Some (0, false, [])
  end.

Definition parse_numlit (s : string) : option numlit :=
  let l0 := Chars.skip_spaces (list_ascii_of_string s) in
  let '(neg, l1) := parse_sign l0 in
  let '(ids, l2) := Chars.span_digits l1 in
  let '(fds, has_dot, l3) :=
    match l2 with
    | c :: r =>
        if Ascii.eqb c "." then
          let '(fds, r') := Chars.span_digits r in (fds, true, r')
        else ([], false, l2)
    | [] => ([], false, [])
    end in
  match (ids ++ fds)%list with
  | [] => None
  | _ =>
      match parse_exponent l3 with
      | None => None
      | Some (e, has_exp, l4) =>
          match Chars.skip_spaces l4 with
          | [] => Some (NumLit neg ids fds e (negb has_dot && negb has_exp))
          | _ => None
          end
      end
  end.

Definition int64_min : Z := - 2 ^ 63.
Definition int64_max : Z := 2 ^ 63 - 1.

(** *** [sqlite3AtoF]

    SQLite 3.40 reads the digits into a 64-bit significand [s] and a
    decimal exponent, and scales [s] by the power of ten in the C type
    [long double], which on x86-64 is the 80-bit extended format
    (precision 64); the result is then rounded to a double. The value is
    the nearest double for most literals and one unit in the last place
    off for some. *)

Definition xprec : Z := 64.
Definition xemax : Z := 16384.

(** An integer as a [long double]. *)
Definition long_of_Z (n : Z) : spec_float := binary_normalize xprec xemax n 0 false.

(** A [long double] assigned to a [double]. *)
Definition double_of_long (x : spec_float) : PyFloat.float :=
  match x with
  | S754_finite s m e => binary_round PyFloat.prec PyFloat.emax s m e
  | _ => x
  end.

(** [sqlite3Pow10]: ten to the [E] by repeated squaring. *)
Fixpoint pow10_loop (fuel : nat) (E : Z) (x r : spec_float) : spec_float :=
  match fuel with
  | O => r
  | S f =>
      let r' := if Z.odd E then SFmul xprec xemax r x else r in
      let E' := Z.shiftr E 1 in
      if E' =? 0 then r' else pow10_loop f E' (SFmul xprec xemax x x) r'
  end.

Definition sqlite3Pow10 (E : Z) : spec_float :=
  pow10_loop 32 E (long_of_Z 10) (long_of_Z 1).

(** Below this significand another digit still fits in 64 bits. *)
Definition digit_room : Z := (int64_max - 9) / 10.

(** The digits before the point: once the significand is full the
    remaining ones only raise the exponent. *)
Fixpoint scan_digits (s : Z) (ds : list ascii) : Z * Z :=
  match ds with
  | [] => (s, 0)
  | c :: r =>
      let s' := 10 * s + Chars.digit_val c in
      if digit_room <=? s' then (s', Z.of_nat (length r)) else scan_digits s' r
  end.

(** The digits after the point: each one taken lowers the exponent, and
    those that no longer fit are dropped. *)
Fixpoint scan_fraction (s d : Z) (ds : list ascii) : Z * Z :=
  match ds with
  | [] => (s, d)
  | c :: r =>
      if s <? digit_room
      then scan_fraction (10 * s + Chars.digit_val c) (d - 1) r
      else scan_fraction s d r
  end.

(** The loop that folds the exponent into the significand while that is
    exact: multiply while it fits, divide while it ends in a zero. *)
Fixpoint reduce_exponent (fuel : nat) (up : bool) (s e : Z) : Z * Z :=
  match fuel with
  | O => (s, e)
  | S f =>
      if 0 <? e then
        if up then
          if int64_max / 10 <=? s then (s, e)
          else reduce_exponent f up (10 * s) (e - 1)
        else
          if s mod 10 =? 0 then reduce_exponent f up (s / 10) (e - 1)
          else (s, e)
      else (s, e)
  end.

Definition double_1e308 : PyFloat.float := PyFloat.of_decimal false 1 308.

Definition sqlite3AtoF (n : numlit) : PyFloat.float :=
  let '(s1, d1) := scan_digits 0 (lit_digits n) in
  let '(s2, d2) := scan_fraction s1 d1 (lit_frac n) in
  let e0 := lit_exp n + d2 in
  let up := 0 <=? e0 in
  if s2 =? 0 then S754_zero (lit_neg n)
  else
    let '(s3, e) := reduce_exponent 32 up s2 (Z.abs e0) in
    let s := if lit_neg n then - s3 else s3 in
    if e =? 0 then PyFloat.of_Z s
    else if 307 <? e then
      if e <? 342 then
        let scale := sqlite3Pow10 (e - 308) in
        if up then
          PyFloat.mul
            (double_of_long (SFmul xprec xemax (long_of_Z s) scale))
            double_1e308
        else
          SFdiv PyFloat.prec PyFloat.emax
            (double_of_long (SFdiv xprec xemax (long_of_Z s) scale))
            double_1e308
      else
        if up then S754_infinity (lit_neg n) else S754_zero (lit_neg n)
    else
      let scale := sqlite3Pow10 e in
      if up then double_of_long (SFmul xprec xemax (long_of_Z s) scale)
      else double_of_long (SFdiv xprec xemax (long_of_Z s) scale).

(** The integer a literal without point or exponent denotes. *)
Definition lit_value (n : numlit) : Z :=
  let v := Chars.digits_val (lit_digits n) in
  if lit_neg n then - v else v.

(** The integer a REAL holds, when it holds one strictly inside the
    64-bit range ([sqlite3VdbeIntegerAffinity]). *)
Definition real_as_int (r : PyFloat.float) : option Z :=
  match r with
  | S754_zero _ => Some 0
  | S754_finite s m e =>
      if 0 <=? e then
        let v := Zpos m * 2 ^ e in
        let v' := if s then - v else v in
        if (int64_min <? v') && (v' <? int64_max) then Some v' else None
      else if Zpos m mod 2 ^ (- e) =? 0 then
        let v := Zpos m / 2 ^ (- e) in Some (if s then - v else v)
      else None
  | _ => None
  end.

(** NUMERIC affinity on a text (also INTEGER affinity, and what a
    comparison with an INTEGER column applies to a text operand): an
    integer literal in range becomes INTEGER, any other literal becomes
    REAL and then INTEGER if it is one, and text that is no literal stays
    TEXT. *)
Definition numeric_affinity_text (s : string) : value :=
  match parse_numlit s with
  | None => VText s
  | Some n =>
      let v := lit_value n in
      if lit_int n && (int64_min <=? v) && (v <=? int64_max) then VInt v
      else
        let r := sqlite3AtoF n in
        match real_as_int r with
        | Some i => VInt i
        | None => VReal r
        end
  end.

(** What binding a Python object to a statement parameter stores before
    any affinity: a NaN is bound as NULL. *)
Definition bind (v : value) : value :=
  match v with
  | VReal r => if PyFloat.is_nan r then VNull else v
  | _ => v
  end.

(** Storing into a column declared INTEGER. *)
Definition integer_affinity (v : value) : value :=
  match bind v with
  | VText s => numeric_affinity_text s
  | VReal r => match real_as_int r with Some i => VInt i | None => VReal r end
  | w => w
  end.

(** A float as a REAL column hands it back. The column keeps a float that
    is a whole number strictly inside the 64-bit range as an integer and
    converts that to a float when it is read: the same double, except
    that -0.0 comes back as 0.0. *)
Definition stored_real (r : PyFloat.float) : PyFloat.float :=
  match r with
  | S754_zero _ => S754_zero false
  | _ => r
  end.

(** Storing into a column declared REAL: as NUMERIC, and an integer is
    forced into floating point. *)
Definition real_affinity (v : value) : value :=
  match bind v with
  | VText s =>
      match parse_numlit s with
      | None => VText s
      | Some n =>
          let v := lit_value n in
          if lit_int n && (int64_min <=? v) && (v <=? int64_max)
          then VReal (PyFloat.of_Z v)
          else VReal (stored_real (sqlite3AtoF n))
      end
  | VInt n => VReal (PyFloat.of_Z n)
  | VReal r => VReal (stored_real r)
  | w => w
  end.

(** [column = value] between a value and the integer key of a row: an
    INTEGER compares by value, a REAL by its exact value, TEXT and NULL
    never match. *)
Definition eq_rowid (v : value) (id : Z) : bool :=
  match v with
  | VInt n => n =? id
  | VReal r =>
      match PyFloat.to_Q r with
      | Some q => Qeq_bool q (inject_Z id)
      | None => false
      end
  | _ => false
  end.

(** [id = ?] with a [str] parameter: the parameter takes the column's
    numeric affinity first. *)
Definition text_eq_rowid (s : string) (id : Z) : bool :=
  eq_rowid (numeric_affinity_text s) id.

End Sql.

(** ** Text: UTF-8 and the decimal digits of Unicode

    A [str] is held as its UTF-8 bytes. Python's [\d] and [int()] work
    on code points and take any decimal digit of Unicode. *)

Module Unicode.

(** The code point a byte sequence that does not decode is read as
    (the decoder of the form works with [errors="replace"]). *)
Definition replacement : Z := 65533.

(** The payload of a continuation byte. *)
Definition continuation (c : ascii) : option Z :=
  let n := Chars.code c in
  if (128 <=? n) && (n <? 192) then Some (n - 128) else None.

(** The code points of a UTF-8 text. Overlong forms, surrogates and what
    lies beyond U+10FFFF do not decode; each byte that begins no
    well-formed sequence is read as [replacement]. *)
Fixpoint decode (l : list ascii) : list Z :=
  match l with
  | [] => []
  | a :: r =>
      let n := Chars.code a in
      if n <? 128 then n :: decode r
      else if (194 <=? n) && (n <? 224) then
        match r with
        | b :: r1 =>
            match continuation b with
            | Some x => (n - 192) * 64 + x :: decode r1
            | None => replacement :: decode r
            end
        | [] => replacement :: decode r
        end
      else if (224 <=? n) && (n <? 240) then
        match r with
        | b :: c :: r2 =>
            match continuation b, continuation c with
            | Some x, Some y =>
                let cp := ((n - 224) * 64 + x) * 64 + y in
                if (2048 <=? cp) && negb ((55296 <=? cp) && (cp <? 57344))
                then cp :: decode r2
                else replacement :: decode r
            | _, _ => replacement :: decode r
            end
        | _ => replacement :: decode r
        end
      else if (240 <=? n) && (n <? 245) then
        match r with
        | b :: c :: d :: r3 =>
            match continuation b, continuation c, continuation d with
            | Some x, Some y, Some z =>
                let cp := (((n - 240) * 64 + x) * 64 + y) * 64 + z in
                if (65536 <=? cp) && (cp <=? 1114111)
                then cp :: decode r3
                else replacement :: decode r
            | _, _, _ => replacement :: decode r
            end
        | _ => replacement :: decode r
        end
      else replacement :: decode r
  end.

(** The decimal digits (category Nd) of Unicode 14.0, the version
    Python 3.11 carries: they come in runs of ten, zero to nine, and the
    table lists the zero of each run. *)
Definition decimal_zeros : list Z :=
  [48; 1632; 1776; 1984; 2406; 2534; 2662; 2790; 2918; 3046; 3174; 3302;
   3430; 3558; 3664; 3792; 3872; 4160; 4240; 6112; 6160; 6470; 6608; 6784;
   6800; 6992; 7088; 7232; 7248; 42528; 43216; 43264; 43472; 43504; 43600;
   44016; 65296; 66720; 68912; 69734; 69872; 69942; 70096; 70384; 70736;
   70864; 71248; 71360; 71472; 71904; 72016; 72784; 73040; 73120; 92768;
   92864; 93008; 120782; 120792; 120802; 120812; 120822; 123200; 123632;
   125264; 130032].

(** The value of a decimal digit, [None] for any other code point. *)
Definition decimal (c : Z) : option Z :=
  option_map (fun zero => c - zero)
    (List.find (fun zero => (zero <=? c) && (c <? zero + 10)) decimal_zeros).

Definition is_decimal (c : Z) : bool :=
  match decimal c with Some _ => true | None => false end.

(** [int(s)] on the text a directive matched: the digits by their
    values, the space that may lead a day left out. *)
Definition int (cs : list Z) : Z :=
  fold_left (fun acc c => match decimal c with
                          | Some v => 10 * acc + v
                          | None => acc
                          end) cs 0.

End Unicode.

(** ** Dates: [datetime.strptime(s, "%Y-%m-%d")] and [timedelta.days] *)

Module PyDate.

Record date := Date { year : Z; month : Z; day : Z }.

Definition is_leap (y : Z) : bool :=
  (y mod 4 =? 0) && (negb (y mod 100 =? 0) || (y mod 400 =? 0)).

Definition days_in_month (y m : Z) : Z :=
  if m =? 2 then (if is_leap y then 29 else 28)
  else if (m =? 4) || (m =? 6) || (m =? 9) || (m =? 11) then 30
  else 31.

Definition days_before_year (y : Z) : Z :=
  let y1 := y - 1 in y1 * 365 + y1 / 4 - y1 / 100 + y1 / 400.

(** Days of the year before the first of month [m]. *)
Definition days_before_month (y m : Z) : Z :=
  fold_left (fun acc k => acc + days_in_month y (Z.of_nat k))
            (seq 1 (Z.to_nat (m - 1))) 0.

(** [date.toordinal()]: 1 for 0001-01-01. *)
Definition toordinal (d : date) : Z :=
  days_before_year (year d) + days_before_month (year d) (month d) + day d.

(** [(a - b).days]. *)
Definition days_between (a b : date) : Z := toordinal a - toordinal b.

(** A character class [[lo-hi]] of ASCII characters, and a literal
    character. *)
Definition in_range (lo hi : ascii) (c : Z) : bool :=
  (Chars.code lo <=? c) && (c <=? Chars.code hi).

Definition is_char (a : ascii) (c : Z) : bool := c =? Chars.code a.

Definition orelse {A} (a b : option A) : option A :=
  match a with Some _ => a | None => b end.

(** The directives as [_strptime] compiles them, each alternative tried
    in order with the rest of the pattern as continuation:
    [%Y] is [\d\d\d\d], [%m] is [1[0-2]|0[1-9]|[1-9]] and
    [%d] is [3[0-1]|[1-2]\d|0[1-9]|[1-9]| [1-9]]. The classes written
    with a range take ASCII digits only, [\d] any decimal digit. *)
Definition re_year {A} (l : list Z) (k : Z -> list Z -> option A)
  : option A :=
  match l with
  | a :: b :: c :: d :: r =>
      if Unicode.is_decimal a && Unicode.is_decimal b
         && Unicode.is_decimal c && Unicode.is_decimal d
      then k (Unicode.int [a; b; c; d]) r
      else None
  | _ => None
  end.

Definition re_two {A} (p1 p2 : Z -> bool) (l : list Z)
    (k : Z -> list Z -> option A) : option A :=
  match l with
  | a :: b :: r => if p1 a && p2 b then k (Unicode.int [a; b]) r else None
  | _ => None
  end.

Definition re_one {A} (p : Z -> bool) (l : list Z)
    (k : Z -> list Z -> option A) : option A :=
  match l with
  | a :: r => if p a then k (Unicode.int [a]) r else None
  | _ => None
  end.

Definition re_month {A} (l : list Z) (k : Z -> list Z -> option A)
  : option A :=
  orelse (re_two (is_char "1") (in_range "0" "2") l k)
    (orelse (re_two (is_char "0") (in_range "1" "9") l k)
       (re_one (in_range "1" "9") l k)).

Definition re_day {A} (l : list Z) (k : Z -> list Z -> option A)
  : option A :=
  orelse (re_two (is_char "3") (in_range "0" "1") l k)
    (orelse (re_two (in_range "1" "2") Unicode.is_decimal l k)
       (orelse (re_two (is_char "0") (in_range "1" "9") l k)
          (orelse (re_one (in_range "1" "9") l k)
             (re_two (is_char " ") (in_range "1" "9") l k)))).

Definition re_dash {A} (l : list Z) (k : list Z -> option A)
  : option A :=
  match l with
  | c :: r => if is_char "-" c then k r else None
  | [] => None
  end.

(** The match of the whole pattern at the start of the text: the fields
    and what is left unconverted. *)
Definition re_match (l : list Z) : option (Z * Z * Z * list Z) :=
  re_year l (fun y l1 =>
  re_dash l1 (fun l2 =>
  re_month l2 (fun m l3 =>
  re_dash l3 (fun l4 =>
  re_day l4 (fun d rest => Some (y, m, d, rest)))))).

(** [None] stands for the [ValueError] of a text that does not match, of
    unconverted data left over, of year 0 and of a day the month lacks. *)
Definition strptime (s : string) : option date :=
  match re_match (Unicode.decode (list_ascii_of_string s)) with
  | Some (y, m, d, []) =>
      if (1 <=? y) && (d <=? days_in_month y m) then Some (Date y m d)
      else None
  | _ => None
  end.

End PyDate.

(** ** The store: the tables of [init_db] *)

Module Store.

Import Sql.

(** [clients (id INTEGER PRIMARY KEY AUTOINCREMENT, name TEXT, phone TEXT)].
    The TEXT columns only ever receive a [str], which TEXT affinity
    leaves as it is. *)
Record client := Client {
  client_id : Z;
  client_name : string;
  client_phone : string
}.

(** [rooms (id ..., number TEXT UNIQUE, type TEXT, price REAL,
    status TEXT DEFAULT 'Disponible')]. *)
Record room := Room {
  room_id : Z;
  room_number : string;
  room_type : string;
  room_price : value;
  room_status : string
}.

(** [bookings (id ..., client_id INTEGER, room_id INTEGER, checkin TEXT,
    checkout TEXT, total REAL)]. The foreign keys are declared, and
    SQLite does not enforce them unless a connection turns them on, which
    [get_db_connection] does not. *)
Record booking := Booking {
  booking_id : Z;
  booking_client : value;
  booking_room : value;
  booking_checkin : string;
  booking_checkout : string;
  booking_total : value
}.

(** Each table is its rows in rowid order and the counter AUTOINCREMENT
    keeps of the largest rowid ever given out. *)
Record store := Store {
  clients_tbl : list client;
  clients_seq : Z;
  rooms_tbl : list room;
  rooms_seq : Z;
  bookings_tbl : list booking;
  bookings_seq : Z
}.

(** A fresh database after [init_db]. *)
Definition init_db : store := Store [] 0 [] 0 [] 0.

Definition Disponible : string := "Disponible".
Definition Occupee : string := "Occupée".

(** The rowid AUTOINCREMENT picks: one more than the largest that ever
    existed. *)
Definition next_rowid (ids : list Z) (seq : Z) : Z :=
  Z.max seq (foldr Z.max 0 ids) + 1.

(** [INSERT INTO clients (name, phone) VALUES (?, ?)] *)
Definition insert_client (name phone : string) (s : store) : store :=
  let id := next_rowid (map client_id (clients_tbl s)) (clients_seq s) in
  Store (clients_tbl s ++ [Client id name phone]) id
        (rooms_tbl s) (rooms_seq s) (bookings_tbl s) (bookings_seq s).

(** [INSERT INTO rooms (number, type, price) VALUES (?, ?, ?)]: [None] is
    the failure of the UNIQUE constraint on [number]. *)
Definition insert_room (number type price : string) (s : store)
  : option store :=
  if existsb (fun r => String.eqb (room_number r) number) (rooms_tbl s)
  then None
  else
    let id := next_rowid (map room_id (rooms_tbl s)) (rooms_seq s) in
    Some (Store (clients_tbl s) (clients_seq s)
            (rooms_tbl s ++
               [Room id number type (real_affinity (VText price)) Disponible])
            id (bookings_tbl s) (bookings_seq s)).

(** [INSERT INTO bookings (client_id, room_id, checkin, checkout, total)
    VALUES (?, ?, ?, ?, ?)] *)
Definition insert_booking (client room : string) (checkin checkout : string)
    (total : value) (s : store) : store :=
  let id := next_rowid (map booking_id (bookings_tbl s)) (bookings_seq s) in
  Store (clients_tbl s) (clients_seq s) (rooms_tbl s) (rooms_seq s)
        (bookings_tbl s ++
           [Booking id (integer_affinity (VText client))
              (integer_affinity (VText room)) checkin checkout
              (real_affinity total)])
        id.

Definition occupy (r : room) : room :=
  Room (room_id r) (room_number r) (room_type r) (room_price r) Occupee.

(** [UPDATE rooms SET status='Occupée' WHERE id=?] *)
Definition update_room_status (room : string) (s : store) : store :=
  Store (clients_tbl s) (clients_seq s)
        (map (fun r => if text_eq_rowid room (room_id r) then occupy r else r)
           (rooms_tbl s))
        (rooms_seq s) (bookings_tbl s) (bookings_seq s).

(** [SELECT price FROM rooms WHERE id=?] and [fetchone()]. *)
Definition select_price (room : string) (s : store) : option value :=
  option_map room_price
    (List.find (fun r => text_eq_rowid room (room_id r)) (rooms_tbl s)).

(** [SELECT * FROM rooms WHERE status='Disponible'] *)
Definition available_rooms (s : store) : list room :=
  List.filter (fun r => String.eqb (room_status r) Disponible) (rooms_tbl s).

(** [SELECT COUNT( * ) FROM rooms WHERE status='Occupée'] *)
Definition count_occupied (s : store) : Z :=
  Z.of_nat (length (List.filter (fun r => String.eqb (room_status r) Occupee)
                      (rooms_tbl s))).

(** A row of [bookings b JOIN clients c ON b.client_id = c.id
    JOIN rooms r ON b.room_id = r.id]. *)
Record joined := Joined {
  j_booking : booking;
  j_client : client;
  j_room : room
}.

Definition join_bookings (s : store) : list joined :=
  flat_map (fun b =>
    flat_map (fun c =>
      map (fun r => Joined b c r)
        (List.filter (fun r => eq_rowid (booking_room b) (room_id r))
           (rooms_tbl s)))
      (List.filter (fun c => eq_rowid (booking_client b) (client_id c))
         (clients_tbl s)))
    (bookings_tbl s).

(** The join restricted by [WHERE b.id=?], and [fetchone()]. *)
Definition select_invoice (id : Z) (s : store) : option joined :=
  head (List.filter (fun j => booking_id (j_booking j) =? id) (join_bookings s)).

End Store.

(** ** The views *)

Module App.

Import Sql Store.

(** The exceptions the views can let escape. Flask answers
    [BadRequestKeyError] with status 400 and any other with 500. *)
Inductive exn :=
| BadRequestKeyError (key : string)
| TypeError
| ValueError
| OverflowError
| IntegrityError
| OperationalError.

(** *** The connection

    [sqlite3] opens a transaction before the first INSERT or UPDATE and
    only [commit()] makes it durable. From that statement until it
    commits or is closed the connection holds the write lock of the
    database file, and a statement that writes fails with
    [OperationalError] (database is locked) while another connection
    holds it. Any call into the database can also fail on its own (a disk
    error, a full disk), with [OperationalError] too.

    [on_disk] is the committed database and [in_txn] what the connection
    sees; [writing] says that the connection holds the write lock,
    [locked] that another connection does, and [failing] counts the calls
    down to the one that fails, if one does. *)
Record conn := Conn {
  on_disk : store;
  in_txn : store;
  writing : bool;
  locked : bool;
  failing : option nat
}.

Definition get_db_connection (locked : bool) (failing : option nat)
    (s : store) : conn :=
  Conn s s false locked failing.

Definition M (A : Type) : Type := conn -> (exn + A) * conn.

Definition ret {A} (a : A) : M A := fun c => (inr a, c).

Definition raise {A} (e : exn) : M A := fun c => (inl e, c).

Definition bind {A B} (m : M A) (k : A -> M B) : M B :=
  fun c => match m c with
           | (inl e, c') => (inl e, c')
           | (inr a, c') => k a c'
           end.

Notation "x <- m ;; k" := (bind m (fun x => k))
  (at level 100, m at next level, right associativity).
Notation "m ;;; k" := (bind m (fun _ => k))
  (at level 100, right associativity).

(** A call into the database: it fails when it is the one [failing]
    counts down to. *)
Definition call {A} (op : M A) : M A :=
  fun c => match failing c with
           | Some O => (inl OperationalError, c)
           | Some (S n) =>
               op (Conn (on_disk c) (in_txn c) (writing c) (locked c) (Some n))
           | None => op c
           end.

(** A SELECT: the statement is prepared, its parameters are bound as
    [params] says, and it runs. *)
Definition query_with {A} (params : M unit) (f : store -> A) : M A :=
  call (params ;;; fun c => (inr (f (in_txn c)), c)).

(** A SELECT whose parameters, if it has any, are texts. *)
Definition query {A} (f : store -> A) : M A := query_with (ret tt) f.

(** The first statement that writes takes the write lock. *)
Definition begin_write : M unit :=
  fun c => if writing c then (inr tt, c)
           else if locked c then (inl OperationalError, c)
           else (inr tt, Conn (on_disk c) (in_txn c) true (locked c) (failing c)).

(** An INSERT or UPDATE. *)
Definition execute (f : store -> store) : M unit :=
  call (begin_write ;;;
        fun c => (inr tt, Conn (on_disk c) (f (in_txn c)) (writing c)
                            (locked c) (failing c))).

Definition commit : M unit :=
  call (fun c => (inr tt, Conn (in_txn c) (in_txn c) false (locked c)
                            (failing c))).

Definition close : M unit :=
  fun c => (inr tt, Conn (on_disk c) (on_disk c) false (locked c) (failing c)).

(** *** Requests and responses *)

Inductive http_method := GET | POST.

Record request := Request {
  method : http_method;
  form : gmap string string;
  session : gmap string value
}.

(** [request.form[key]] *)
Definition form_get (req : request) (key : string) : M string :=
  match form req !! key with
  | Some v => ret v
  | None => raise (BadRequestKeyError key)
  end.

(** A row of the booking history. *)
Record booking_line := BookingLine {
  line_id : Z;
  line_client_name : string;
  line_room_number : string;
  line_checkin : string;
  line_checkout : string;
  line_total : value
}.

(** The variables each template is rendered with. The revenue of the
    dashboard is [SUM(total)] over the bookings; the page carries the
    column and leaves the aggregate to the engine. *)
Inductive context :=
| DashboardCtx (total_rooms occupied_rooms available_rooms : Z)
    (revenue_of : list value)
| ClientsCtx (clients : list client)
| RoomsCtx (rooms : list room)
| BookingsCtx (bookings : list booking_line) (clients : list client)
    (rooms : list room).

(** The flowables handed to [SimpleDocTemplate.build]. *)
Inductive flowable :=
| Paragraph (text : string) (style : string)
| Spacer (width height : Z).

(** [SendFile] is the document built from flowables whose texts are
    plain. reportlab reads the text of a [Paragraph] as markup, where [<]
    opens a tag and [&] a character reference, and raises [ValueError] on
    markup it cannot parse. That parser is not modelled: [Markup] stands
    for what it makes of a document with such a text, the file or the
    error. *)
Inductive response :=
| Redirect (endpoint : string)
| Template (name : string) (ctx : context)
| Body (text : string)
| SendFile (filename : string) (elements : list flowable)
| Markup (filename : string) (elements : list flowable)
| MethodNotAllowed
| Abort (e : exn).

(** A view function body, and a view once it has run against the
    database: the response, the database left behind, and whether the
    request has left its connection open inside a transaction. Such a
    connection keeps the write lock until the garbage collector finalizes
    it, which rolls the transaction back. *)
Definition view := request -> M response.

Record served := Served {
  answer : response;
  committed : store;
  abandoned : bool
}.

Definition run_on (locked : bool) (failing : option nat) (v : view)
    (req : request) (s : store) : served :=
  match v req (get_db_connection locked failing s) with
  | (inr resp, c) => Served resp (on_disk c) (writing c)
  | (inl e, c) => Served (Abort e) (on_disk c) (writing c)
  end.

(** The view when no other connection holds the lock and no call
    fails. *)
Definition run (v : view) (req : request) (s : store) : response * store :=
  let o := run_on false None v req s in (answer o, committed o).

(** *** [login_required] *)
Definition login_required (f : view) : view :=
  fun req =>
    match session req !! "user_id" with
    | None => ret (Redirect "login")
    | Some _ => f req
    end.

(** *** [dashboard] *)
Definition dashboard_body : view := fun req =>
  total_rooms <- query (fun s => Z.of_nat (length (rooms_tbl s))) ;;
  occupied_rooms <- query count_occupied ;;
  let available_rooms := total_rooms - occupied_rooms in
  revenue <- query (fun s => map booking_total (bookings_tbl s)) ;;
  close ;;;
  ret (Template "dashboard.html"
         (DashboardCtx total_rooms occupied_rooms available_rooms revenue)).

Definition dashboard : view := login_required dashboard_body.

(** *** [clients] *)
Definition clients_body : view := fun req =>
  match method req with
  | POST =>
      name <- form_get req "name" ;;
      phone <- form_get req "phone" ;;
      execute (insert_client name phone) ;;;
      commit
  | GET => ret tt
  end ;;;
  all_clients <- query clients_tbl ;;
  close ;;;
  ret (Template "clients.html" (ClientsCtx all_clients)).

Definition clients : view := login_required clients_body.

(** *** [rooms] *)

(** The INSERT of a room: the UNIQUE constraint is checked once the
    statement holds the write lock. *)
Definition execute_insert_room (number type price : string) : M unit :=
  call (begin_write ;;;
        fun c => match insert_room number type price (in_txn c) with
                 | Some s' =>
                     (inr tt, Conn (on_disk c) s' (writing c) (locked c)
                                (failing c))
                 | None => (inl IntegrityError, c)
                 end).

Definition rooms_body : view := fun req =>
  match method req with
  | POST =>
      number <- form_get req "number" ;;
      room_type <- form_get req "type" ;;
      price <- form_get req "price" ;;
      execute_insert_room number room_type price ;;;
      commit
  | GET => ret tt
  end ;;;
  all_rooms <- query rooms_tbl ;;
  close ;;;
  ret (Template "rooms.html" (RoomsCtx all_rooms)).

Definition rooms : view := login_required rooms_body.

(** *** [bookings] *)

(** Python's [price * total_days] on what [fetchone()[0]] returned:
    float times int, int times int, the repetition of a [str], and a
    [TypeError] on [None]. *)
Definition py_mul (price : value) (total_days : Z) : option value :=
  match price with
  | VReal r => Some (VReal (PyFloat.mul r (PyFloat.of_Z total_days)))
  | VInt n => Some (VInt (n * total_days))
  | VText t => Some (VText (Chars.repeat_string t (Z.to_nat total_days)))
  | VNull => None
  end.

Definition strptime (s : string) : M PyDate.date :=
  match PyDate.strptime s with
  | Some d => ret d
  | None => raise ValueError
  end.

Definition booking_lines (s : store) : list booking_line :=
  map (fun j => BookingLine (booking_id (j_booking j))
                (client_name (j_client j)) (room_number (j_room j))
                (booking_checkin (j_booking j))
                (booking_checkout (j_booking j))
                (booking_total (j_booking j)))
    (join_bookings s).

Definition bookings_body : view := fun req =>
  clients <- query clients_tbl ;;
  rooms <- query available_rooms ;;
  match method req with
  | POST =>
      client_id <- form_get req "client_id" ;;
      room_id <- form_get req "room_id" ;;
      checkin <- form_get req "checkin" ;;
      checkout <- form_get req "checkout" ;;
      row <- query (select_price room_id) ;;
      price <- match row with
               | Some p => ret p
               | None => raise TypeError
               end ;;
      d_out <- strptime checkout ;;
      d_in <- strptime checkin ;;
      let total_days := PyDate.days_between d_out d_in in
      total <- match py_mul price total_days with
               | Some t => ret t
               | None => raise TypeError
               end ;;
      execute (insert_booking client_id room_id checkin checkout total) ;;;
      execute (update_room_status room_id) ;;;
      commit
  | GET => ret tt
  end ;;;
  all_bookings <- query booking_lines ;;
  close ;;;
  ret (Template "bookings.html" (BookingsCtx all_bookings clients rooms)).

Definition bookings : view := login_required bookings_body.

(** *** [invoice] *)

(** [str(v)] as an f-string field formats a fetched value. *)
Definition py_str (v : value) : string :=
  match v with
  | VNull => "None"
  | VInt n => Chars.str_of_Z n
  | VReal r => PyFloat.repr r
  | VText t => t
  end.

Definition invoice_elements (j : joined) : list flowable :=
  [ Paragraph "FACTURE HÔTEL" "Title";
    Spacer 1 12;
    Paragraph ("Client: " ++ client_name (j_client j) ++ " - "
                 ++ client_phone (j_client j)) "Normal";
    Paragraph ("Chambre: " ++ room_number (j_room j) ++ " - "
                 ++ room_type (j_room j)) "Normal";
    Paragraph ("Check-in: " ++ booking_checkin (j_booking j)) "Normal";
    Paragraph ("Check-out: " ++ booking_checkout (j_booking j)) "Normal";
    Paragraph ("Total: " ++ py_str (booking_total (j_booking j)) ++ " €")
      "Normal" ].

(** A text without the two characters that start markup. *)
Definition plain_text (t : string) : bool :=
  forallb (fun c => negb (Ascii.eqb c "<" || Ascii.eqb c "&"))
    (list_ascii_of_string t).

Definition plain (f : flowable) : bool :=
  match f with
  | Paragraph text _ => plain_text text
  | Spacer _ _ => true
  end.

(** Binding a Python [int] as a statement parameter: it has to fit
    SQLite's 64-bit INTEGER. *)
Definition bind_int (n : Z) : M unit :=
  if (int64_min <=? n) && (n <=? int64_max) then ret tt
  else raise OverflowError.

Definition invoice_body (booking_id : N) : view := fun req =>
  booking <- query_with (bind_int (Z.of_N booking_id))
               (select_invoice (Z.of_N booking_id)) ;;
  close ;;;
  match booking with
  | None => ret (Body "Réservation introuvable")
  | Some j =>
      let filename := "invoice_" ++ Chars.str_of_Z (Z.of_N booking_id) ++ ".pdf" in
      let elements := invoice_elements j in
      if forallb plain elements then ret (SendFile filename elements)
      else ret (Markup filename elements)
  end.

Definition invoice (booking_id : N) : view :=
  login_required (invoice_body booking_id).

(** *** The routes of the booking slice *)
Inductive route :=
| RDashboard
| RClients
| RRooms
| RBookings
| RInvoice (booking_id : N).

(** [@app.route] with its [methods]: a route declared without them
    answers GET only. *)
Definition app_on (locked : bool) (failing : option nat) (r : route)
    (req : request) (s : store) : served :=
  match r, method req with
  | RDashboard, GET => run_on locked failing dashboard req s
  | RClients, _ => run_on locked failing clients req s
  | RRooms, _ => run_on locked failing rooms req s
  | RBookings, _ => run_on locked failing bookings req s
  | RInvoice id, GET => run_on locked failing (invoice id) req s
  | _, POST => Served MethodNotAllowed s false
  end.

(** The application when no other connection holds the lock and no call
    fails. *)
Definition app (r : route) (req : request) (s : store) : response * store :=
  let o := app_on false None r req s in (answer o, committed o).

End App.

(** ** The server: one request after the other *)

Module Server.

Import Store App.

(** The database file, and whether a connection that an earlier request
    abandoned inside a transaction still holds the write lock. *)
Record state := State {
  db : store;
  lock_held : bool
}.

Definition start (s : store) : state := State s false.

Definition handle (r : route) (req : request) (st : state)
  : response * state :=
  let o := app_on (lock_held st) None r req (db st) in
  (answer o, State (committed o) (lock_held st || abandoned o)).

(** The garbage collector finalizes the abandoned connections: their
    transactions are rolled back and the lock is released. *)
Definition collect (st : state) : state := State (db st) false.

End Server.

(** ** Users, [init_db], [login] and [logout] *)

Module Auth.

Import Sql Store App.

(** [users (id INTEGER PRIMARY KEY AUTOINCREMENT, username TEXT UNIQUE,
    password TEXT, role TEXT)] *)
Record user := User {
  user_id : Z;
  user_username : string;
  user_password : string;
  user_role : string
}.

(** The whole of [hotel.db]: the users beside the three tables of the
    hotel. *)
Record database := Database {
  users_tbl : list user;
  users_seq : Z;
  hotel : store
}.

(** The database file as [init_db] finds it: each table is there, with
    its rows and its AUTOINCREMENT counter, or is not. A file that does
    not exist yet is created empty by [sqlite3.connect]. *)
Record dbfile := DbFile {
  file_users : option (list user * Z);
  file_clients : option (list client * Z);
  file_rooms : option (list room * Z);
  file_bookings : option (list booking * Z)
}.

Definition new_file : dbfile := DbFile None None None None.

Definition file_of (d : database) : dbfile :=
  DbFile (Some (users_tbl d, users_seq d))
    (Some (clients_tbl (hotel d), clients_seq (hotel d)))
    (Some (rooms_tbl (hotel d), rooms_seq (hotel d)))
    (Some (bookings_tbl (hotel d), bookings_seq (hotel d))).

(** [CREATE TABLE IF NOT EXISTS] *)
Definition create_table_if_not_exists {A} (t : option (list A * Z))
  : list A * Z :=
  match t with
  | Some rows => rows
  | None => ([], 0)
  end.

(** [SELECT * FROM users WHERE username=?] and [fetchone()]. *)
Definition select_user (username : string) (users : list user) : option user :=
  List.find (fun u => String.eqb (user_username u) username) users.

(** [init_db], as far as the database goes. [hashed] is what
    [generate_password_hash("admin123")] returns, a salted hash that
    differs from call to call; it is only used when no user is named
    admin. *)
Definition init_db (hashed : string) (f : dbfile) : database :=
  let '(users, users_seq) := create_table_if_not_exists (file_users f) in
  let '(clients, clients_seq) := create_table_if_not_exists (file_clients f) in
  let '(rooms, rooms_seq) := create_table_if_not_exists (file_rooms f) in
  let '(bookings, bookings_seq) :=
    create_table_if_not_exists (file_bookings f) in
  let hotel := Store clients clients_seq rooms rooms_seq bookings bookings_seq in
  match select_user "admin" users with
  | Some _ => Database users users_seq hotel
  | None =>
      let id := next_rowid (map user_id users) users_seq in
      Database (users ++ [User id "admin" hashed "admin"]) id hotel
  end.

(** What [login] and [logout] answer with beside the responses of the
    hotel's views: the login page and its error. *)
Inductive reply :=
| Core (resp : response)
| LoginTemplate (error : option string).

(** The answer to a request: the reply, the session the answer carries
    back and the database left behind. *)
Record outcome := Outcome {
  out_reply : reply;
  out_session : gmap string value;
  out_database : database
}.

Section Werkzeug.

(** [werkzeug.security.check_password_hash] *)
Variable check_password_hash : string -> string -> bool.

Definition login_error : string := "Nom d'utilisateur ou mot de passe incorrect".

Definition login (req : request) (d : database) : outcome :=
  match method req with
  | POST =>
      match form req !! "username" with
      | None =>
          Outcome (Core (Abort (BadRequestKeyError "username"))) (session req) d
      | Some username =>
          match form req !! "password" with
          | None =>
              Outcome (Core (Abort (BadRequestKeyError "password")))
                (session req) d
          | Some password =>
              match select_user username (users_tbl d) with
              | Some user =>
                  if check_password_hash (user_password user) password then
                    Outcome (Core (Redirect "dashboard"))
                      (<["role" := VText (user_role user)]>
                         (<["username" := VText (user_username user)]>
                            (<["user_id" := VInt (user_id user)]>
                               (session req))))
                      d
                  else Outcome (LoginTemplate (Some login_error)) (session req) d
              | None => Outcome (LoginTemplate (Some login_error)) (session req) d
              end
          end
      end
  | GET => Outcome (LoginTemplate None) (session req) d
  end.

(** [logout], behind [login_required]: [session.clear()] and the
    redirect to the login page. *)
Definition logout (req : request) (d : database) : outcome :=
  match session req !! "user_id" with
  | None => Outcome (Core (Redirect "login")) (session req) d
  | Some _ => Outcome (Core (Redirect "login")) ∅ d
  end.

(** Every route of the application. *)
Inductive endpoint :=
| Login
| Logout
| Page (r : route).

Definition serve (e : endpoint) (req : request) (d : database) : outcome :=
  match e with
  | Login => login req d
  | Logout =>
      match method req with
      | GET => logout req d
      | POST => Outcome (Core MethodNotAllowed) (session req) d
      end
  | Page r =>
      let '(resp, s') := app r req (hotel d) in
      Outcome (Core resp) (session req)
        (Database (users_tbl d) (users_seq d) s')
  end.

End Werkzeug.

End Auth.

(** ** [backup_db] *)

Module Backup.

Import Auth.

(** [datetime.now()] *)
Record datetime := DateTime {
  year : Z;
  month : Z;
  day : Z;
  hour : Z;
  minute : Z;
  second : Z
}.

Definition digit (n : Z) : ascii := ascii_of_N (Z.to_N (48 + n)).

(** A field of two digits, padded with a zero. *)
Definition pad2 (n : Z) : string :=
  String (digit (n / 10)) (String (digit (n mod 10)) EmptyString).

(** [strftime("%Y%m%d_%H%M%S")]: the year unpadded, as the C library
    prints it. *)
Definition strftime (t : datetime) : string :=
  (Chars.str_of_Z (year t) ++ pad2 (month t) ++ pad2 (day t) ++ "_"
     ++ pad2 (hour t) ++ pad2 (minute t) ++ pad2 (second t))%string.

(** The working directory: [hotel.db], if it exists, and the files of
    the directory [backups]; [None] when there is no directory of that
    name, be it that nothing has the name or that a regular file has
    it. *)
Record disk := Disk {
  database_file : option dbfile;
  backup_dir : option (gmap string dbfile)
}.

(** [os.path.join(BACKUP_DIR, f"hotel_backup_{timestamp}.db")], as the
    name within the directory. *)
Definition backup_name (t : datetime) : string :=
  ("hotel_backup_" ++ strftime t ++ ".db")%string.

(** [backup_db]: [None] is the error [shutil.copy2] raises when
    [hotel.db] or the directory is missing ([FileNotFoundError], or
    [NotADirectoryError] when [backups] is a regular file). *)
Definition backup_db (now : datetime) (d : disk) : option disk :=
  match database_file d, backup_dir d with
  | Some db, Some files =>
      Some (Disk (Some db) (Some (<[backup_name now := db]> files)))
  | _, _ => None
  end.

End Backup.

(** * Properties *)

Import Sql Store App.

Open Scope list_scope.

(** ** Worked requests

    The requests of the examples: every one carries the session of a user
    who logged in. *)

Module Examples.

Definition logged_in : gmap string value := {[ "user_id" := VInt 1 ]}.

Definition post (fields : list (string * string)) : request :=
  Request POST (list_to_map fields) logged_in.

Definition get : request := Request GET ∅ logged_in.

Definition anonymous_post (fields : list (string * string)) : request :=
  Request POST (list_to_map fields) ∅.

Definition add_jane : request :=
  post [("name", "Jane Doe"); ("phone", "555-1234")].

Definition add_room_101 (price : string) : request :=
  post [("number", "101"); ("type", "Standard"); ("price", price)].

Definition book (client room checkin checkout : string) : request :=
  post [("client_id", client); ("room_id", room);
        ("checkin", checkin); ("checkout", checkout)].

(** Jane Doe and room 101 at the given nightly rate, registered on a
    fresh database. *)
Definition desk_at (price : string) : store :=
  snd (app RRooms (add_room_101 price) (snd (app RClients add_jane init_db))).

(** The desk with room 101 at 100 a night. *)
Definition desk : store := desk_at "100".

(** The desk after Jane booked room 101 for the nights of January 10
    and 11, 2026. *)
Definition desk_booked : store :=
  snd (app RBookings (book "1" "1" "2026-01-10" "2026-01-12") desk).

End Examples.

(** ** The vocabulary of the properties *)

(** What the two statements of a successful POST to [/bookings] leave
    once committed: the INSERT, then the UPDATE. *)
Definition booked (client room checkin checkout : string) (total : value)
    (s : store) : store :=
  update_room_status room (insert_booking client room checkin checkout total s).

(** The form and the lookups under which the POST reaches its INSERT. *)
Record accepted (req : request) (s : store)
    (client room checkin checkout : string) (price : value)
    (d_out d_in : PyDate.date) (total : value) : Prop := {
  acc_session : is_Some (session req !! "user_id");
  acc_method : method req = POST;
  acc_client : form req !! "client_id" = Some client;
  acc_room : form req !! "room_id" = Some room;
  acc_checkin : form req !! "checkin" = Some checkin;
  acc_checkout : form req !! "checkout" = Some checkout;
  acc_price : select_price room s = Some price;
  acc_d_out : PyDate.strptime checkout = Some d_out;
  acc_d_in : PyDate.strptime checkin = Some d_in;
  acc_total : py_mul price (PyDate.days_between d_out d_in) = Some total
}.

(** The total is the rate times the nights as numbers: both are finite
    floats and their exact values multiply without rounding. *)
Definition exact_product (rate : value) (nights : Z) (total : value) : Prop :=
  match rate, total with
  | VReal r, VReal t =>
      match PyFloat.to_Q r, PyFloat.to_Q t with
      | Some qr, Some qt => (qt == qr * inject_Z nights)%Q
      | _, _ => False
      end
  | _, _ => False
  end.

(** The total a REAL rate leaves in the REAL column for a stay of [days]
    days: the product in double arithmetic, NULL when that is not a
    number, and 0.0 for a zero of either sign. *)
Definition float_total (rate : PyFloat.float) (days : Z) : value :=
  match PyFloat.mul rate (PyFloat.of_Z days) with
  | S754_nan => VNull
  | S754_zero _ => VReal (S754_zero false)
  | product => VReal product
  end.



(** The stores the application can reach from a fresh database: any
    request to any route of the slice. *)
Inductive reachable : store -> Prop :=
| reachable_init : reachable init_db
| reachable_step s r req : reachable s -> reachable (snd (app r req s)).

(** A booking references a room as the join reads it,
    [b.room_id = r.id]. *)
Definition references (b : booking) (r : room) : Prop :=
  eq_rowid (booking_room b) (room_id r) = true.

(** The invariant: a room is occupied exactly when a booking references
    it, and every booking references a room. *)
Record occupancy_inv (s : store) : Prop := {
  inv_occupied : forall r, In r (rooms_tbl s) ->
    (room_status r = Occupee <-> exists b, In b (bookings_tbl s) /\ references b r);
  inv_room_exists : forall b, In b (bookings_tbl s) ->
    exists r, In r (rooms_tbl s) /\ references b r
}.




(** The methods a route is declared with: [dashboard] and [invoice]
    name none, so they take GET only. *)
Definition accepts (r : route) (m : http_method) : bool :=
  match r, m with
  | RDashboard, POST | RInvoice _, POST => false
  | _, _ => true
  end.

(** The form fields the POST branch of a view reads, in the order it
    reads them. *)
Definition required (r : route) : list string :=
  match r with
  | RClients => ["name"; "phone"]
  | RRooms => ["number"; "type"; "price"]
  | RBookings => ["client_id"; "room_id"; "checkin"; "checkout"]
  | _ => []
  end.

(** The first of the fields that the form lacks. *)
Definition first_missing (req : request) (fields : list string)
  : option string :=
  List.find (fun k => match form req !! k with None => true | Some _ => false end)
    fields.

(** The columns of a room that no statement of the application
    updates. *)
Definition room_record (r : room) : Z * string * string * value :=
  (room_id r, room_number r, room_type r, room_price r).

(** The keys of a table are in insertion order: strictly increasing,
    positive, and none beyond the AUTOINCREMENT counter. *)
Definition keys_in_order (ids : list Z) (seq : Z) : Prop :=
  StronglySorted Z.lt ids /\ Forall (fun id => 1 <= id <= seq) ids.

Record keyed (s : store) : Prop := {
  keyed_clients : keys_in_order (map client_id (clients_tbl s)) (clients_seq s);
  keyed_rooms : keys_in_order (map room_id (rooms_tbl s)) (rooms_seq s);
  keyed_bookings :
    keys_in_order (map booking_id (bookings_tbl s)) (bookings_seq s)
}.

(** The ranges of the fields of a [datetime]. *)
Record valid_datetime (t : Backup.datetime) : Prop := {
  valid_year : 1 <= Backup.year t <= 9999;
  valid_month : 1 <= Backup.month t <= 12;
  valid_day : 1 <= Backup.day t <= 31;
  valid_hour : 0 <= Backup.hour t <= 23;
  valid_minute : 0 <= Backup.minute t <= 59;
  valid_second : 0 <= Backup.second t <= 59
}.

(** The next request of a browser: it carries the session the last
    answer handed back. *)
Definition follow_up (o : Auth.outcome) (m : http_method)
    (fields : gmap string string) : request :=
  Request m fields (Auth.out_session o).

(** A stand-in for werkzeug in the worked examples: the hash of a
    password is the password behind a tag. *)
Definition tagged_check (hash password : string) : bool :=
  String.eqb hash ("plain:" ++ password).

(** The calendar order of two dates. *)
Definition date_lt (a b : PyDate.date) : Prop :=
  PyDate.year a < PyDate.year b \/
  (PyDate.year a = PyDate.year b /\
   (PyDate.month a < PyDate.month b \/
    (PyDate.month a = PyDate.month b /\ PyDate.day a < PyDate.day b))).

(** ** Running a view *)

Ltac unfold_views :=
  unfold app, app_on, run, run_on, dashboard, clients, rooms, bookings,
    invoice, login_required, dashboard_body, clients_body, rooms_body,
    bookings_body, invoice_body, bind_int, App.bind, ret, raise, query,
    query_with, execute, execute_insert_room, commit, close, call,
    begin_write,
    form_get, App.strptime, get_db_connection in *.

(** Case analysis on the test of a conditional in the goal. *)
Ltac case_if :=
  match goal with
  | |- context [if ?b then _ else _] => destruct b
  end.

(** Running a view to its answer, case by case on what it looks up. *)
Ltac run_cases :=
  cbn -[forallb invoice_elements];
  repeat (match goal with
          | |- context [form ?req !! ?k] => destruct (form req !! k)
          | |- context [select_price ?a ?b] => destruct (select_price a b)
          | |- context [PyDate.strptime ?a] => destruct (PyDate.strptime a)
          | |- context [py_mul ?a ?b] => destruct (py_mul a b)
          | |- context [insert_room ?a ?b ?c ?d] =>
              destruct (insert_room a b c d)
          | |- context [select_invoice ?a ?b] => destruct (select_invoice a b)
          | |- context [forallb plain ?l] => destruct (forallb plain l)
          | |- context [(?a <=? ?b) && (?c <=? ?d)] =>
              destruct ((a <=? b) && (c <=? d))
          end; cbn -[forallb invoice_elements]).

(** The dispatch of [app], view by view. *)
Lemma app_dispatch (r : route) (req : request) (s : store) :
  app r req s =
    match r, method req with
    | RDashboard, GET => run dashboard req s
    | RClients, _ => run clients req s
    | RRooms, _ => run rooms req s
    | RBookings, _ => run bookings req s
    | RInvoice id, GET => run (invoice id) req s
    | _, POST => (MethodNotAllowed, s)
    end.
Proof. unfold app, app_on, run. destruct r, (method req); reflexivity. Qed.

Lemma run_login_required_anonymous (f : view) (req : request) (s : store) :
  session req !! "user_id" = None ->
  run (login_required f) req s = (Redirect "login", s).
Proof.
  intros H. unfold run, run_on, login_required. rewrite H. reflexivity.
Qed.

(** The store a successful [INSERT INTO rooms] leaves. *)
Lemma insert_room_Some number type price s s' :
  insert_room number type price s = Some s' ->
  exists r,
    rooms_tbl s' = rooms_tbl s ++ [r] /\
    room_id r = next_rowid (map room_id (rooms_tbl s)) (rooms_seq s) /\
    room_number r = number /\ room_type r = type /\
    room_price r = real_affinity (VText price) /\
    room_status r = Disponible /\
    clients_tbl s' = clients_tbl s /\ bookings_tbl s' = bookings_tbl s.
Proof.
  unfold insert_room. destruct (existsb _ _); [discriminate|].
  intros [= <-]. eexists. simpl. repeat split; reflexivity.
Qed.

Lemma insert_room_unique number type price s :
  (forall r, In r (rooms_tbl s) -> room_number r <> number) ->
  exists s', insert_room number type price s = Some s'.
Proof.
  intros Hfresh. unfold insert_room.
  destruct (existsb _ _) eqn:E; [|eauto].
  apply existsb_exists in E as (r & Hin & Heq).
  apply String.eqb_eq in Heq. destruct (Hfresh r Hin Heq).
Qed.

Lemma insert_room_duplicate number type price s :
  (exists r, In r (rooms_tbl s) /\ room_number r = number) ->
  insert_room number type price s = None.
Proof.
  intros (r & Hin & Heq). unfold insert_room.
  destruct (existsb _ _) eqn:E; [reflexivity|].
  assert (existsb (fun r => String.eqb (room_number r) number) (rooms_tbl s)
          = true) as E'.
  { apply existsb_exists. exists r. split; [assumption|].
    now apply String.eqb_eq. }
  congruence.
Qed.

Lemma rooms_post req s u number type price :
  session req !! "user_id" = Some u ->
  method req = POST ->
  form req !! "number" = Some number ->
  form req !! "type" = Some type ->
  form req !! "price" = Some price ->
  app RRooms req s =
    match insert_room number type price s with
    | Some s' => (Template "rooms.html" (RoomsCtx (rooms_tbl s')), s')
    | None => (Abort IntegrityError, s)
    end.
Proof.
  intros Hu Hm Hn Ht Hp. unfold_views.
  rewrite Hu, Hm, Hn, Ht, Hp. cbn.
  destruct (insert_room number type price s); reflexivity.
Qed.

Lemma clients_post req s u name phone :
  session req !! "user_id" = Some u ->
  method req = POST ->
  form req !! "name" = Some name ->
  form req !! "phone" = Some phone ->
  app RClients req s =
    let s' := insert_client name phone s in
    (Template "clients.html" (ClientsCtx (clients_tbl s')), s').
Proof.
  intros Hu Hm Hn Hp. unfold_views.
  rewrite Hu, Hm, Hn, Hp. reflexivity.
Qed.

(** ** The access gate *)

(** C9. A request whose session holds no [user_id] is answered by every
    view behind [login_required] (dashboard, clients, rooms, bookings,
    invoice) with the redirect to the login page, and whatever the route
    and method the database is left as it was. *)
Theorem anonymous_request_rejected (req : request) (s : store) :
  session req !! "user_id" = None ->
  run dashboard req s = (Redirect "login", s) /\
  run clients req s = (Redirect "login", s) /\
  run rooms req s = (Redirect "login", s) /\
  run bookings req s = (Redirect "login", s) /\
  (forall id, run (invoice id) req s = (Redirect "login", s)) /\
  (forall r, snd (app r req s) = s).
Proof.
  intros H.
  repeat split;
    try (intros; now apply run_login_required_anonymous).
  intros r. rewrite app_dispatch.
  destruct r, (method req); try reflexivity;
    unfold dashboard, clients, rooms, bookings, invoice;
    now rewrite run_login_required_anonymous.
Qed.

Lemma anonymous_request_rejected_witness :
  let req := Examples.anonymous_post
               [("client_id", "1"); ("room_id", "1");
                ("checkin", "2026-01-10"); ("checkout", "2026-01-12")] in
  run bookings req Examples.desk = (Redirect "login", Examples.desk) /\
  snd (app RBookings req Examples.desk) = Examples.desk.
Proof.
  intros req.
  destruct (anonymous_request_rejected req Examples.desk)
    as (_ & _ & _ & Hb & _ & Happ).
  - reflexivity.
  - split; [exact Hb | exact (Happ RBookings)].
Defined.

(** ** Registration *)

(** C8, where the code breaks it. A POST to [/rooms] with a number some
    room already has is refused by the UNIQUE constraint
    ([IntegrityError]) and the database is unchanged, as the claim says.
    But [rooms] closes its connection on the path that returns only: the
    refused request leaves it open inside its transaction, holding the
    write lock. Until the garbage collector has finalized that
    connection, a POST to [/clients] fails with [OperationalError] and
    appends nothing, and so does a POST to [/rooms] whatever its number;
    once it has, the same POST to [/clients] appends its one record and
    a POST to [/rooms] with a new number appends its one. *)
Theorem duplicate_room_locks_out_registration
    (s : store) (req_room req_client : request) (u v : value)
    (number type price name phone : string) :
  session req_room !! "user_id" = Some u ->
  method req_room = POST ->
  form req_room !! "number" = Some number ->
  form req_room !! "type" = Some type ->
  form req_room !! "price" = Some price ->
  session req_client !! "user_id" = Some v ->
  method req_client = POST ->
  form req_client !! "name" = Some name ->
  form req_client !! "phone" = Some phone ->
  (exists r, In r (rooms_tbl s) /\ room_number r = number) ->
  let st := Server.State s true in
  Server.handle RRooms req_room (Server.start s) = (Abort IntegrityError, st) /\
  Server.handle RClients req_client st = (Abort OperationalError, st) /\
  (forall req w number' type' price',
     session req !! "user_id" = Some w ->
     method req = POST ->
     form req !! "number" = Some number' ->
     form req !! "type" = Some type' ->
     form req !! "price" = Some price' ->
     Server.handle RRooms req st = (Abort OperationalError, st) /\
     ((forall r, In r (rooms_tbl s) -> room_number r <> number') ->
      exists r,
        let st' := snd (Server.handle RRooms req (Server.collect st)) in
        rooms_tbl (Server.db st') = rooms_tbl s ++ [r] /\
        room_number r = number' /\ room_type r = type' /\
        Server.lock_held st' = false)) /\
  (exists c,
     let st' := snd (Server.handle RClients req_client (Server.collect st)) in
     clients_tbl (Server.db st') = clients_tbl s ++ [c] /\
     client_name c = name /\ client_phone c = phone /\
     Server.lock_held st' = false).
Proof.
  intros Hu Hm Hn Ht Hp Hv Hm' Hname Hphone Hdup. cbv zeta.
  unfold Server.handle, Server.start, Server.collect.
  cbn [Server.db Server.lock_held].
  split; [|split; [|split]].
  - unfold_views. rewrite Hu, Hm, Hn, Ht, Hp. cbn.
    now rewrite (insert_room_duplicate _ _ _ _ Hdup).
  - unfold_views. rewrite Hv, Hm', Hname, Hphone. reflexivity.
  - intros req w number' type' price' Hw Hmr Hn' Ht' Hp'.
    unfold_views. rewrite Hw, Hmr, Hn', Ht', Hp'.
    split; [reflexivity|]. intros Hfresh. cbn.
    destruct (insert_room_unique number' type' price' s Hfresh) as [s' Hs'].
    rewrite Hs'. cbn.
    destruct (insert_room_Some _ _ _ _ _ Hs')
      as (r & Hr & _ & Hnum & Hty & _).
    exists r. auto.
  - unfold_views. rewrite Hv, Hm', Hname, Hphone. cbn.
    eexists. repeat split; reflexivity.
Qed.
Lemma duplicate_room_locks_out_registration_witness :
  let st := Server.State Examples.desk true in
  Server.handle RRooms (Examples.add_room_101 "80") (Server.start Examples.desk)
    = (Abort IntegrityError, st) /\
  Server.handle RClients Examples.add_jane st = (Abort OperationalError, st) /\
  Server.handle RRooms
    (Examples.post [("number", "102"); ("type", "Standard"); ("price", "80")]) st
    = (Abort OperationalError, st).
Proof.
  destruct (duplicate_room_locks_out_registration Examples.desk
              (Examples.add_room_101 "80") Examples.add_jane
              (VInt 1) (VInt 1) "101" "Standard" "80" "Jane Doe" "555-1234")
    as (Hdup & Hclient & Hroom & _); try reflexivity.
  - eexists. split; [left; reflexivity | reflexivity].
  - split; [exact Hdup|]. split; [exact Hclient|].
    apply (Hroom _ (VInt 1) "102" "Standard" "80"); reflexivity.
Defined.
(** *** The server and the stores it reaches *)

(** A request that meets the lock stores nothing. *)
Lemma locked_request_stores_nothing (r : route) (req : request) (s : store) :
  committed (app_on true None r req s) = s.
Proof.
  unfold_views.
  destruct r, (method req); try reflexivity;
    destruct (session req !! "user_id"); run_cases; reflexivity.
Qed.

(** Whatever lock the requests leave behind, the server only reaches
    databases the application reaches without it. *)
Lemma served_database_reachable (r : route) (req : request)
    (st : Server.state) :
  reachable (Server.db st) ->
  reachable (Server.db (snd (Server.handle r req st))) /\
  reachable (Server.db (Server.collect st)).
Proof.
  intros H. split; [|exact H].
  unfold Server.handle. cbn [snd Server.db].
  destruct (Server.lock_held st).
  - now rewrite locked_request_stores_nothing.
  - exact (reachable_step _ r req H).
Qed.

(** ** Creating a booking *)

Lemma bookings_post req s client room checkin checkout price d_out d_in total :
  accepted req s client room checkin checkout price d_out d_in total ->
  app RBookings req s =
    let s' := booked client room checkin checkout total s in
    (Template "bookings.html"
       (BookingsCtx (booking_lines s') (clients_tbl s) (available_rooms s)),
     s').
Proof.
  intros [[u Hu] Hm Hc Hr Hi Ho Hp Hdo Hdi Ht]. unfold_views.
  rewrite Hu, Hm. simpl. rewrite Hc, Hr, Hi, Ho. simpl.
  rewrite Hp, Hdo, Hdi. unfold ret. simpl. rewrite Ht. reflexivity.
Qed.

(** The calls of a view that fail before any statement has written
    leave nothing behind. *)
Ltac fault_cases failing :=
  destruct failing as [[|[|[|[|[|[|[|?]]]]]]]|]; cbn; auto.

(** What a request to [/bookings] does to the database, whatever lock
    it meets and whichever call fails: nothing, unless it is accepted,
    meets no lock and none of its first six calls fails (the two lists of
    the page, the price, the INSERT, the UPDATE and the commit); then both
    statements are committed, and only the query of the history, which
    comes after the commit, can still fail. *)
Lemma bookings_on_cases locked failing req s :
  let o := app_on locked failing RBookings req s in
  committed o = s \/
  (exists client room checkin checkout price d_out d_in total,
     accepted req s client room checkin checkout price d_out d_in total /\
     committed o = booked client room checkin checkout total s /\
     locked = false /\
     (forall k, failing = Some k -> (6 <= k)%nat) /\
     (forall e, answer o = Abort e -> failing = Some 6%nat) /\
     (failing = None ->
      answer o = Template "bookings.html"
                   (BookingsCtx
                      (booking_lines (booked client room checkin checkout total s))
                      (clients_tbl s) (available_rooms s)))).
Proof.
  cbv zeta.
  destruct (session req !! "user_id") as [u|] eqn:Hu; cycle 1.
  { left. unfold_views. destruct (method req); rewrite Hu; reflexivity. }
  destruct (method req) eqn:Hm.
  { left. unfold_views. rewrite Hu, Hm. fault_cases failing. }
  destruct (form req !! "client_id") as [client|] eqn:Hc; cycle 1.
  { left. unfold_views. rewrite Hu, Hm, Hc. fault_cases failing. }
  destruct (form req !! "room_id") as [room|] eqn:Hr; cycle 1.
  { left. unfold_views. rewrite Hu, Hm, Hc, Hr. fault_cases failing. }
  destruct (form req !! "checkin") as [checkin|] eqn:Hi; cycle 1.
  { left. unfold_views. rewrite Hu, Hm, Hc, Hr, Hi. fault_cases failing. }
  destruct (form req !! "checkout") as [checkout|] eqn:Ho; cycle 1.
  { left. unfold_views. rewrite Hu, Hm, Hc, Hr, Hi, Ho. fault_cases failing. }
  destruct (select_price room s) as [price|] eqn:Hp; cycle 1.
  { left. unfold_views. rewrite Hu, Hm, Hc, Hr, Hi, Ho.
    fault_cases failing; rewrite Hp; reflexivity. }
  destruct (PyDate.strptime checkout) as [d_out|] eqn:Hdo; cycle 1.
  { left. unfold_views. rewrite Hu, Hm, Hc, Hr, Hi, Ho.
    fault_cases failing; rewrite Hp, Hdo; reflexivity. }
  destruct (PyDate.strptime checkin) as [d_in|] eqn:Hdi; cycle 1.
  { left. unfold_views. rewrite Hu, Hm, Hc, Hr, Hi, Ho.
    fault_cases failing; rewrite Hp, Hdo, Hdi; reflexivity. }
  destruct (py_mul price (PyDate.days_between d_out d_in)) as [total|] eqn:Ht;
    cycle 1.
  { left. unfold_views. rewrite Hu, Hm, Hc, Hr, Hi, Ho.
    fault_cases failing; rewrite Hp, Hdo, Hdi; cbn; rewrite Ht; reflexivity. }
  assert (accepted req s client room checkin checkout price d_out d_in total)
    as Hacc by (split; eauto).
  unfold_views. rewrite Hu, Hm, Hc, Hr, Hi, Ho.
  destruct locked.
  { left. fault_cases failing; rewrite Hp, Hdo, Hdi; cbn; rewrite Ht;
      reflexivity. }
  destruct failing as [[|[|[|[|[|[|[|k]]]]]]]|]; cbn; auto;
    rewrite Hp, Hdo, Hdi; cbn; rewrite Ht; cbn; auto;
    right; exists client, room, checkin, checkout, price, d_out, d_in, total;
    (split; [exact Hacc|]); (split; [reflexivity|]); (split; [reflexivity|]).
  - split; [intros k [= <-]; lia|]. split; [reflexivity | discriminate].
  - split; [intros k' [= <-]; lia|]. split; [discriminate | discriminate].
  - split; [discriminate|]. split; [discriminate | reflexivity].
Qed.

(** Every other request to [/bookings] leaves the database as it was. *)
Lemma bookings_cases req s :
  (exists resp, app RBookings req s = (resp, s)) \/
  (exists client room checkin checkout price d_out d_in total,
     accepted req s client room checkin checkout price d_out d_in total).
Proof.
  destruct (bookings_on_cases false None req s)
    as [H | (client & room & checkin & checkout & price & d_out & d_in
             & total & Hacc & _)].
  - left. exists (answer (app_on false None RBookings req s)).
    unfold app. cbv zeta in *. now rewrite H.
  - right. exists client, room, checkin, checkout, price, d_out, d_in, total.
    exact Hacc.
Qed.

(** The rooms a [room_id] parameter selects. *)
Lemma select_price_room room s price :
  select_price room s = Some price ->
  exists r, In r (rooms_tbl s) /\ text_eq_rowid room (room_id r) = true /\
            room_price r = price.
Proof.
  unfold select_price. intros H.
  destruct (find _ _) as [r|] eqn:E; [|discriminate].
  injection H as <-. apply find_some in E as [Hin Hm]. eauto.
Qed.

Lemma booked_bookings client room checkin checkout total s :
  bookings_tbl (booked client room checkin checkout total s) =
    bookings_tbl s ++
      [Booking (next_rowid (map booking_id (bookings_tbl s)) (bookings_seq s))
         (integer_affinity (VText client)) (numeric_affinity_text room)
         checkin checkout (real_affinity total)].
Proof. reflexivity. Qed.

Lemma booked_rooms client room checkin checkout total s :
  rooms_tbl (booked client room checkin checkout total s) =
    map (fun r => if text_eq_rowid room (room_id r) then occupy r else r)
        (rooms_tbl s).
Proof. reflexivity. Qed.

(** After the UPDATE every selected room is occupied, the others keep
    their status, and no room changes its key. *)
Lemma booked_room_status client room checkin checkout total s r' :
  In r' (rooms_tbl (booked client room checkin checkout total s)) ->
  exists r, In r (rooms_tbl s) /\ room_id r' = room_id r /\
    if text_eq_rowid room (room_id r) then room_status r' = Occupee
    else r' = r.
Proof.
  rewrite booked_rooms, in_map_iff. intros (r & <- & Hin).
  exists r. split; [assumption|].
  destruct (text_eq_rowid room (room_id r)) eqn:E; simpl; rewrite ?E; auto.
Qed.

Lemma booked_room_kept client room checkin checkout total s r :
  In r (rooms_tbl s) ->
  exists r', In r' (rooms_tbl (booked client room checkin checkout total s)) /\
    room_id r' = room_id r /\
    if text_eq_rowid room (room_id r) then room_status r' = Occupee
    else r' = r.
Proof.
  intros Hin. rewrite booked_rooms.
  exists (if text_eq_rowid room (room_id r) then occupy r else r).
  split; [apply in_map_iff; eauto|].
  destruct (text_eq_rowid room (room_id r)); auto.
Qed.





(** *** The sign of a product *)








(** What the REAL column keeps of a float total. *)
Lemma stored_float_total (rate : PyFloat.float) (days : Z) :
  real_affinity (VReal (PyFloat.mul rate (PyFloat.of_Z days)))
  = float_total rate days.
Proof.
  unfold float_total, real_affinity, Sql.bind.
  destruct (PyFloat.mul rate (PyFloat.of_Z days)); reflexivity.
Qed.


(** A stay that ends the day it starts is accepted on the desk. *)
Lemma same_day_accepted :
  accepted (Examples.book "1" "1" "2026-01-10" "2026-01-10")
    Examples.desk "1" "1" "2026-01-10" "2026-01-10"
    (VReal (PyFloat.of_Z 100)) (PyDate.Date 2026 1 10) (PyDate.Date 2026 1 10)
    (VReal (PyFloat.of_Z 0)).
Proof.
  split; try (vm_compute; reflexivity). eexists. vm_compute. reflexivity.
Defined.





(** ** The stored total *)

(** Three nights in room 101 at 0.1 a night. *)
Lemma three_nights_accepted :
  accepted (Examples.book "1" "1" "2026-01-10" "2026-01-13")
    (Examples.desk_at "0.1") "1" "1" "2026-01-10" "2026-01-13"
    (VReal (S754_finite false 7205759403792794 (-56)))
    (PyDate.Date 2026 1 13) (PyDate.Date 2026 1 10)
    (VReal (S754_finite false 5404319552844596 (-54))).
Proof.
  split; try (vm_compute; reflexivity). eexists. vm_compute. reflexivity.
Defined.

(** C3, the claim as stated fails: the rate is stored as a double and
    multiplied as one, so the product is rounded. Three nights at the
    rate 0.1 store the total 0.30000000000000004, which is not three
    times the stored rate. *)
Lemma total_is_rounded :
  let s := Examples.desk_at "0.1" in
  let s' := snd (app RBookings
                   (Examples.book "1" "1" "2026-01-10" "2026-01-13") s) in
  PyDate.days_between (PyDate.Date 2026 1 13) (PyDate.Date 2026 1 10) = 3 /\
  map room_price (rooms_tbl s)
    = [VReal (S754_finite false 7205759403792794 (-56))] /\
  map booking_total (bookings_tbl s')
    = [VReal (S754_finite false 5404319552844596 (-54))] /\
  map (fun r => py_str (room_price r)) (rooms_tbl s) = ["0.1"%string] /\
  map (fun b => py_str (booking_total b)) (bookings_tbl s')
    = ["0.30000000000000004"%string] /\
  ~ exact_product (VReal (S754_finite false 7205759403792794 (-56))) 3
      (VReal (S754_finite false 5404319552844596 (-54))).
Proof.
  intros s s'. repeat split; try (vm_compute; reflexivity).
  unfold exact_product, PyFloat.to_Q, Qeq. vm_compute. discriminate.
Qed.

(** C3, as the code has it. The total a created booking stores is the
    product of the rate read from the room at booking time and the
    whole-day difference of the two dates in double arithmetic, that is
    rounded to the nearest double; NULL is stored if the product is not a
    number and 0.0 if it is a zero of either sign. *)
Theorem booking_total_is_float_product
    req s client room checkin checkout rate d_out d_in total :
  accepted req s client room checkin checkout (VReal rate) d_out d_in total ->
  exists b,
    bookings_tbl (snd (app RBookings req s)) = bookings_tbl s ++ [b] /\
    select_price room s = Some (VReal rate) /\
    booking_total b =
      match PyFloat.mul rate (PyFloat.of_Z (PyDate.days_between d_out d_in)) with
      | S754_nan => VNull
      | S754_zero _ => VReal (S754_zero false)
      | product => VReal product
      end.
Proof.
  intros Hacc. rewrite (bookings_post _ _ _ _ _ _ _ _ _ _ Hacc). simpl.
  eexists. split; [apply booked_bookings|].
  split; [apply (acc_price _ _ _ _ _ _ _ _ _ _ Hacc)|].
  pose proof (acc_total _ _ _ _ _ _ _ _ _ _ Hacc) as Ht.
  simpl in Ht. injection Ht as <-. cbn [booking_total].
  apply stored_float_total.
Qed.

Lemma booking_total_is_float_product_witness :
  exists b,
    bookings_tbl (snd (app RBookings
                         (Examples.book "1" "1" "2026-01-10" "2026-01-13")
                         (Examples.desk_at "0.1")))
      = bookings_tbl (Examples.desk_at "0.1") ++ [b] /\
    booking_total b = VReal (S754_finite false 5404319552844596 (-54)).
Proof.
  destruct (booking_total_is_float_product _ _ _ _ _ _ _ _ _ _
              three_nights_accepted) as (b & Hb & _ & Ht).
  exists b. split; [exact Hb | exact Ht].
Defined.

(** ** Atomicity *)

(** C4. A request to [/bookings] either leaves the database exactly as
    it was, or commits both effects together: one booking record is
    appended and every room the request names is occupied (there is
    one). This holds whatever lock the request meets and whichever of
    its calls into the database fails. A failure in the middle of the
    operation leaves the database unchanged: if any of the first six
    calls fails (the two lists of the page, the price, the INSERT, the
    UPDATE, the commit), nothing is stored, also when the INSERT or both
    statements had already run. A request answered with an error has
    stored nothing, unless the error is the failure of the seventh call,
    the query of the history that follows the commit. *)
Theorem create_booking_atomic
    (locked : bool) (failing : option nat) (req : request) (s : store) :
  let o := app_on locked failing RBookings req s in
  (committed o = s \/
   exists client room checkin checkout total b,
     committed o = booked client room checkin checkout total s /\
     bookings_tbl (committed o) = bookings_tbl s ++ [b] /\
     booking_room b = numeric_affinity_text room /\
     (exists r, In r (rooms_tbl (committed o)) /\
                text_eq_rowid room (room_id r) = true) /\
     (forall r, In r (rooms_tbl (committed o)) ->
        text_eq_rowid room (room_id r) = true -> room_status r = Occupee)) /\
  (forall k, failing = Some k -> (k < 6)%nat -> committed o = s) /\
  (forall e, answer o = Abort e ->
     committed o = s \/ failing = Some 6%nat) /\
  (locked = true -> committed o = s).
Proof.
  destruct (bookings_on_cases locked failing req s)
    as [H | (client & room & checkin & checkout & price & d_out & d_in
             & total & Hacc & Hs & Hlock & Hk & He & _)]; cbv zeta in *.
  - split; [left; exact H|]. repeat split; auto.
  - split; [right | split; [|split]].
    + exists client, room, checkin, checkout, total. eexists.
      rewrite Hs. split; [reflexivity|].
      split; [apply booked_bookings|]. split; [reflexivity|]. split.
      * destruct (select_price_room _ _ _
                    (acc_price _ _ _ _ _ _ _ _ _ _ Hacc))
          as (r & Hin & Hsel & _).
        destruct (booked_room_kept client room checkin checkout total s r Hin)
          as (r' & Hin' & Hid & _).
        exists r'. split; [exact Hin'|]. now rewrite Hid.
      * intros r' Hin Hsel.
        destruct (booked_room_status client room checkin checkout total s r'
                    Hin) as (r & _ & Hid & Hst).
        rewrite <- Hid, Hsel in Hst. exact Hst.
    + intros k Hf Hlt. specialize (Hk k Hf). lia.
    + intros e Hab. right. exact (He e Hab).
    + intros Hl. congruence.
Qed.

(** On the desk, the booking of the worked examples when its UPDATE
    fails and when its commit fails: the INSERT had run, and nothing is
    stored. *)
Lemma create_booking_atomic_witness :
  let req := Examples.book "1" "1" "2026-01-10" "2026-01-12" in
  answer (app_on false (Some 4%nat) RBookings req Examples.desk)
    = Abort OperationalError /\
  committed (app_on false (Some 4%nat) RBookings req Examples.desk)
    = Examples.desk /\
  answer (app_on false (Some 5%nat) RBookings req Examples.desk)
    = Abort OperationalError /\
  committed (app_on false (Some 5%nat) RBookings req Examples.desk)
    = Examples.desk /\
  committed (app_on false None RBookings req Examples.desk)
    = Examples.desk_booked.
Proof.
  intros req.
  pose proof (create_booking_atomic false (Some 4%nat) req Examples.desk)
    as (_ & H4 & _).
  pose proof (create_booking_atomic false (Some 5%nat) req Examples.desk)
    as (_ & H5 & _).
  split; [reflexivity|].
  split; [exact (H4 4%nat eq_refl ltac:(lia))|].
  split; [reflexivity|].
  split; [exact (H5 5%nat eq_refl ltac:(lia))|].
  reflexivity.
Defined.

(** ** Occupancy follows the bookings *)

Lemma next_rowid_fresh (ids : list Z) (seq : Z) (id : Z) :
  In id ids -> id < next_rowid ids seq.
Proof.
  unfold next_rowid. induction ids as [|x ids IH]; simpl; [tauto|].
  intros [->|Hin]; [lia|]. specialize (IH Hin). lia.
Qed.

Lemma eq_rowid_functional (v : value) (a b : Z) :
  eq_rowid v a = true -> eq_rowid v b = true -> a = b.
Proof.
  destruct v as [|n|r|t]; simpl; try discriminate.
  - intros Ha Hb. apply Z.eqb_eq in Ha, Hb. congruence.
  - destruct (PyFloat.to_Q r) as [q|]; [|discriminate].
    intros Ha Hb. apply Qeq_bool_iff in Ha, Hb.
    apply inject_Z_injective. now rewrite <- Ha, <- Hb.
Qed.

(** What a request can do to the database. *)
Lemma app_store_cases (r : route) (req : request) (s : store) :
  snd (app r req s) = s \/
  (exists name phone, snd (app r req s) = insert_client name phone s) \/
  (exists number type price s',
     insert_room number type price s = Some s' /\ snd (app r req s) = s') \/
  (exists client room checkin checkout price total,
     select_price room s = Some price /\
     snd (app r req s) = booked client room checkin checkout total s).
Proof.
  destruct r as [| | | |id].
  - left. unfold_views.
    destruct (method req); [|reflexivity].
    destruct (session req !! "user_id"); reflexivity.
  - unfold_views. destruct (session req !! "user_id"); [|destruct (method req); auto].
    destruct (method req); cbn; [auto|].
    destruct (form req !! "name") as [name|]; cbn; [|auto].
    destruct (form req !! "phone") as [phone|]; cbn; [|auto].
    right. left. eauto.
  - unfold_views. destruct (session req !! "user_id"); [|destruct (method req); auto].
    destruct (method req); cbn; [auto|].
    destruct (form req !! "number") as [number|]; cbn; [|auto].
    destruct (form req !! "type") as [type|]; cbn; [|auto].
    destruct (form req !! "price") as [price|]; cbn; [|auto].
    destruct (insert_room number type price s) as [s'|] eqn:E; cbn; [|auto].
    right. right. left. eauto 8.
  - destruct (bookings_cases req s)
      as [[resp H] | (client & room & checkin & checkout & price & d_out
                      & d_in & total & Hacc)].
    + left. now rewrite H.
    + right. right. right.
      exists client, room, checkin, checkout, price, total.
      split; [apply (acc_price _ _ _ _ _ _ _ _ _ _ Hacc)|].
      now rewrite (bookings_post _ _ _ _ _ _ _ _ _ _ Hacc).
  - left. unfold_views.
    destruct (method req); [|reflexivity].
    destruct (session req !! "user_id"); [|reflexivity].
    destruct (_ && _); [|reflexivity].
    cbn. destruct (select_invoice _ _); [|reflexivity].
    case_if; reflexivity.
Qed.

Lemma occupancy_inv_init : occupancy_inv init_db.
Proof. split; simpl; intros ? []. Qed.

Lemma occupancy_inv_insert_client name phone s :
  occupancy_inv s -> occupancy_inv (insert_client name phone s).
Proof. intros [H1 H2]. split; simpl; assumption. Qed.

Lemma occupancy_inv_insert_room number type price s s' :
  insert_room number type price s = Some s' ->
  occupancy_inv s -> occupancy_inv s'.
Proof.
  intros Hins [H1 H2].
  destruct (insert_room_Some _ _ _ _ _ Hins)
    as (r0 & Hr & Hid & _ & _ & _ & Hst & _ & Hb).
  split; rewrite Hr, Hb.
  - intros r Hin. apply in_app_iff in Hin as [Hin|[<-|[]]]; [now apply H1|].
    split.
    + rewrite Hst. discriminate.
    + intros (b & Hinb & Href). exfalso.
      destruct (H2 b Hinb) as (r1 & Hin1 & Href1).
      pose proof (eq_rowid_functional _ _ _ Href Href1) as Heq.
      pose proof (next_rowid_fresh (map room_id (rooms_tbl s)) (rooms_seq s)
                    (room_id r1) (in_map room_id _ _ Hin1)) as Hlt.
      lia.
  - intros b Hinb. destruct (H2 b Hinb) as (r1 & Hin1 & Href1).
    exists r1. split; [apply in_app_iff; auto | assumption].
Qed.

Lemma occupancy_inv_booked client room checkin checkout price total s :
  select_price room s = Some price ->
  occupancy_inv s -> occupancy_inv (booked client room checkin checkout total s).
Proof.
  intros Hp [H1 H2]. split.
  - intros r' Hin'. rewrite booked_bookings.
    destruct (booked_room_status _ _ _ _ _ _ _ Hin')
      as (r & Hin & Hid & Hst).
    destruct (text_eq_rowid room (room_id r)) eqn:Hsel.
    + split; [intros _ | intros _; exact Hst].
      eexists. split; [apply in_app_iff; right; left; reflexivity|].
      unfold references. simpl. now rewrite Hid.
    + subst r'. rewrite (H1 r Hin). split.
      * intros (b & Hinb & Href). exists b.
        split; [apply in_app_iff; auto | assumption].
      * intros (b & Hinb & Href).
        apply in_app_iff in Hinb as [Hinb|[<-|[]]]; [eauto|].
        unfold references in Href. simpl in Href.
        unfold text_eq_rowid in Hsel. congruence.
  - intros b Hinb. rewrite booked_bookings in Hinb.
    apply in_app_iff in Hinb as [Hinb|[<-|[]]].
    + destruct (H2 b Hinb) as (r & Hin & Href).
      destruct (booked_room_kept client room checkin checkout total s r Hin)
        as (r' & Hin' & Hid & _).
      exists r'. split; [exact Hin'|]. unfold references in *. now rewrite Hid.
    + destruct (select_price_room _ _ _ Hp) as (r & Hin & Hsel & _).
      destruct (booked_room_kept client room checkin checkout total s r Hin)
        as (r' & Hin' & Hid & _).
      exists r'. split; [exact Hin'|].
      unfold references. simpl. now rewrite Hid.
Qed.

Lemma occupancy_inv_reachable (s : store) : reachable s -> occupancy_inv s.
Proof.
  induction 1 as [|s r req Hreach IH]; [apply occupancy_inv_init|].
  destruct (app_store_cases r req s)
    as [-> | [(name & phone & ->)
           | [(number & type & price & s' & Hins & ->)
             | (client & room & checkin & checkout & price & total & Hp & ->)]]].
  - exact IH.
  - now apply occupancy_inv_insert_client.
  - eapply occupancy_inv_insert_room; eassumption.
  - eapply occupancy_inv_booked; eassumption.
Qed.

(** C5. In every store reachable from the fresh database, a room has
    the status [Occupée] if and only if at least one booking record
    references it. *)
Theorem occupied_iff_booked (s : store) (r : room) :
  reachable s ->
  In r (rooms_tbl s) ->
  (room_status r = Occupee <->
   exists b, In b (bookings_tbl s) /\ references b r).
Proof.
  intros Hreach Hin. now apply (inv_occupied s (occupancy_inv_reachable s Hreach)).
Qed.

Lemma desk_booked_reachable : reachable Examples.desk_booked.
Proof.
  exact (reachable_step _ RBookings _
           (reachable_step _ RRooms _
              (reachable_step _ RClients _ reachable_init))).
Defined.

Lemma occupied_iff_booked_witness :
  let r := Room 1 "101" "Standard" (VReal (PyFloat.of_Z 100)) Occupee in
  In r (rooms_tbl Examples.desk_booked) /\
  (room_status r = Occupee <->
   exists b, In b (bookings_tbl Examples.desk_booked) /\ references b r).
Proof.
  intros r.
  assert (In r (rooms_tbl Examples.desk_booked)) as Hin
    by (left; vm_compute; reflexivity).
  split; [exact Hin|].
  exact (occupied_iff_booked Examples.desk_booked r desk_booked_reachable Hin).
Defined.

(** ** New rooms are offered *)

Lemma bookings_get req s u :
  session req !! "user_id" = Some u ->
  method req = GET ->
  app RBookings req s =
    (Template "bookings.html"
       (BookingsCtx (booking_lines s) (clients_tbl s) (available_rooms s)), s).
Proof.
  intros Hu Hm. unfold_views. rewrite Hu, Hm. reflexivity.
Qed.

(** C10. The room a successful POST to [/rooms] creates has the status
    ['Disponible'], whatever type and price were sent, and the bookings
    page rendered next lists it among the rooms it offers. *)
Theorem new_room_is_available
    (req page : request) (s : store) (u v : value)
    (number type price : string) :
  session req !! "user_id" = Some u ->
  method req = POST ->
  form req !! "number" = Some number ->
  form req !! "type" = Some type ->
  form req !! "price" = Some price ->
  (forall r, In r (rooms_tbl s) -> room_number r <> number) ->
  session page !! "user_id" = Some v ->
  method page = GET ->
  exists r,
    let s' := snd (app RRooms req s) in
    rooms_tbl s' = rooms_tbl s ++ [r] /\
    room_number r = number /\ room_type r = type /\
    room_status r = Disponible /\
    In r (available_rooms s') /\
    exists lines clients offered,
      fst (app RBookings page s')
        = Template "bookings.html" (BookingsCtx lines clients offered) /\
      In r offered.
Proof.
  intros Hu Hm Hn Ht Hp Hfresh Hv Hg.
  rewrite (rooms_post _ s _ _ _ _ Hu Hm Hn Ht Hp).
  destruct (insert_room_unique number type price s Hfresh) as [s' Hs'].
  rewrite Hs'. cbn [snd].
  destruct (insert_room_Some _ _ _ _ _ Hs')
    as (r & Hr & _ & Hnum & Hty & _ & Hst & _ & _).
  assert (In r (available_rooms s')) as Havail.
  { unfold available_rooms. apply filter_In. split.
    - rewrite Hr. apply in_app_iff. right. now left.
    - rewrite Hst. reflexivity. }
  exists r. cbv zeta. repeat (split; [assumption|]).
  rewrite (bookings_get _ s' _ Hv Hg). cbn [fst]. eauto.
Qed.

Lemma new_room_is_available_witness :
  exists r,
    rooms_tbl (snd (app RRooms (Examples.add_room_101 "not a price")
                      init_db)) = [r] /\
    room_status r = Disponible.
Proof.
  destruct (new_room_is_available (Examples.add_room_101 "not a price")
              Examples.get init_db (VInt 1) (VInt 1)
              "101" "Standard" "not a price")
    as (r & Hr & _ & _ & Hst & _); try reflexivity.
  - intros r [].
  - exists r. split; [exact Hr | exact Hst].
Defined.

(** ** The invoice *)






Lemma In_join_bookings (j : joined) (s : store) :
  In j (join_bookings s) <->
  In (j_booking j) (bookings_tbl s) /\
  In (j_client j) (clients_tbl s) /\
  eq_rowid (booking_client (j_booking j)) (client_id (j_client j)) = true /\
  In (j_room j) (rooms_tbl s) /\
  references (j_booking j) (j_room j).
Proof.
  unfold join_bookings, references. rewrite in_flat_map. split.
  - intros (b & Hb & Hj). apply in_flat_map in Hj as (c & Hc & Hj).
    apply in_map_iff in Hj as (r & <- & Hr).
    apply filter_In in Hc as [Hc Hce]. apply filter_In in Hr as [Hr Hre].
    simpl. auto.
  - intros (Hb & Hc & Hce & Hr & Hre). destruct j as [b c r]. simpl in *.
    exists b. split; [assumption|]. apply in_flat_map.
    exists c. split; [apply filter_In; auto|].
    apply in_map_iff. exists r. split; [reflexivity|]. apply filter_In. auto.
Qed.









(** ** The worked invoice *)

(** C7, the claim as stated fails on the text of the total: the rate
    100 is stored as the double 100.0, the total is the double 200.0
    and the invoice prints it as Python prints a float, "200.0". No
    paragraph of the document reads "Total: 200 €". *)
Lemma invoice_total_text_is_not_200 :
  map (fun b => py_str (booking_total b)) (bookings_tbl Examples.desk_booked)
    = ["200.0"%string] /\
  "200.0"%string <> "200"%string /\
  forall filename elements,
    fst (app (RInvoice 1) Examples.get Examples.desk_booked)
      = SendFile filename elements ->
    In (Paragraph "Total: 200.0 €" "Normal") elements /\
    ~ In (Paragraph "Total: 200 €" "Normal") elements.
Proof.
  split; [vm_compute; reflexivity|]. split; [discriminate|].
  intros filename elements H. vm_compute in H. injection H as _ <-.
  split; [do 6 right; left; reflexivity|].
  intros Hin. repeat (destruct Hin as [Hin|Hin]; [discriminate Hin|]).
  destruct Hin.
Qed.

(** C7, as the code has it. Jane Doe, phone 555-1234, books room 101,
    a Standard room at 100 a night, from 2026-01-10 to 2026-01-12: the
    stored total is the double 200.0, exactly two times the rate and
    exactly 200, and the invoice is the document below, with the six
    fields as they were entered and the total printed as "200.0". *)
Theorem jane_doe_invoice :
  Examples.desk_booked =
    snd (app RBookings
           (Examples.post [("client_id", "1"); ("room_id", "1");
                           ("checkin", "2026-01-10");
                           ("checkout", "2026-01-12")])
           (snd (app RRooms
                   (Examples.post [("number", "101"); ("type", "Standard");
                                   ("price", "100")])
                   (snd (app RClients
                           (Examples.post [("name", "Jane Doe");
                                           ("phone", "555-1234")])
                           init_db))))) /\
  map room_price (rooms_tbl Examples.desk_booked)
    = [VReal (PyFloat.of_Z 100)] /\
  map booking_total (bookings_tbl Examples.desk_booked)
    = [VReal (PyFloat.of_Z 200)] /\
  exact_product (VReal (PyFloat.of_Z 100)) 2 (VReal (PyFloat.of_Z 200)) /\
  (exists q, PyFloat.to_Q (PyFloat.of_Z 200) = Some q /\ (q == 200)%Q) /\
  app (RInvoice 1) Examples.get Examples.desk_booked =
    (SendFile "invoice_1.pdf"
       [ Paragraph "FACTURE HÔTEL" "Title";
         Spacer 1 12;
         Paragraph "Client: Jane Doe - 555-1234" "Normal";
         Paragraph "Chambre: 101 - Standard" "Normal";
         Paragraph "Check-in: 2026-01-10" "Normal";
         Paragraph "Check-out: 2026-01-12" "Normal";
         Paragraph "Total: 200.0 €" "Normal" ],
     Examples.desk_booked).
Proof.
  split; [reflexivity|].
  split; [vm_compute; reflexivity|].
  split; [vm_compute; reflexivity|].
  split; [unfold exact_product, Qeq; vm_compute; reflexivity|].
  split; [eexists; split; [reflexivity | vm_compute; reflexivity]|].
  vm_compute. reflexivity.
Qed.

(** * Further properties of the views *)

(** ** The gate, method by method *)

Lemma authenticated_request_passes (r : route) (req : request) (s : store) u :
  session req !! "user_id" = Some u ->
  accepts r (method req) = true ->
  fst (app r req s) <> MethodNotAllowed /\
  fst (app r req s) <> Redirect "login".
Proof.
  intros Hu Hacc. unfold_views.
  destruct r as [| | | |id], (method req) eqn:Hm; try discriminate Hacc;
    rewrite Hu; run_cases; split; discriminate.
Qed.

Lemma undeclared_method_refused (r : route) (req : request) (s : store) :
  accepts r (method req) = false -> fst (app r req s) = MethodNotAllowed.
Proof.
  intros Hacc. rewrite app_dispatch.
  destruct r, (method req); try discriminate Hacc; reflexivity.
Qed.

Lemma anonymous_request_redirected (r : route) (req : request) (s : store) :
  session req !! "user_id" = None ->
  accepts r (method req) = true ->
  fst (app r req s) = Redirect "login".
Proof.
  intros Hu Hacc. rewrite app_dispatch.
  destruct r, (method req); try discriminate Hacc;
    unfold dashboard, clients, rooms, bookings, invoice;
    now rewrite run_login_required_anonymous.
Qed.

(** A GET never changes the database, whatever the route and the
    session. *)
Theorem get_is_read_only (r : route) (req : request) (s : store) :
  method req = GET -> snd (app r req s) = s.
Proof.
  intros Hm. unfold_views. rewrite Hm.
  destruct r; destruct (session req !! "user_id"); run_cases; reflexivity.
Qed.

Lemma get_is_read_only_witness :
  snd (app RBookings Examples.get Examples.desk_booked) = Examples.desk_booked.
Proof. apply (get_is_read_only RBookings Examples.get). reflexivity. Defined.

(** ** Records are permanent *)

Lemma room_record_update room (l : list Store.room) :
  map room_record
    (map (fun r => if text_eq_rowid room (room_id r) then occupy r else r) l)
  = map room_record l.
Proof.
  induction l as [|r l IH]; simpl; [reflexivity|]. rewrite IH. f_equal.
  destruct (text_eq_rowid room (room_id r)); reflexivity.
Qed.

Lemma occupy_occupied (r : Store.room) :
  room_status r = Occupee -> occupy r = r.
Proof. destruct r. simpl. intros ->. reflexivity. Qed.

(** No request removes or rewrites a record: the clients and the
    bookings of before are a prefix of those after, and so are the rooms
    as far as their key, number, type and price go. *)
Theorem records_are_permanent (r : route) (req : request) (s : store) :
  (exists cs, clients_tbl (snd (app r req s)) = clients_tbl s ++ cs) /\
  (exists bs, bookings_tbl (snd (app r req s)) = bookings_tbl s ++ bs) /\
  (exists rs, map room_record (rooms_tbl (snd (app r req s)))
              = map room_record (rooms_tbl s) ++ rs).
Proof.
  destruct (app_store_cases r req s)
    as [-> | [(name & phone & ->)
           | [(number & type & price & s' & Hins & ->)
             | (client & room & checkin & checkout & price & total & Hp & ->)]]].
  - repeat split; exists []; now rewrite app_nil_r.
  - split; [eexists; reflexivity|].
    split; exists []; now rewrite app_nil_r.
  - destruct (insert_room_Some _ _ _ _ _ Hins)
      as (r0 & Hr & _ & _ & _ & _ & _ & Hc & Hb).
    rewrite Hr, Hc, Hb, map_app.
    split; [exists []; now rewrite app_nil_r|].
    split; [exists []; now rewrite app_nil_r | eexists; reflexivity].
  - rewrite booked_bookings, booked_rooms, room_record_update.
    split; [exists []; now rewrite app_nil_r|].
    split; [eexists; reflexivity | exists []; now rewrite app_nil_r].
Qed.

(** No request frees a room: a room that is occupied is found
    unchanged in the database after any request. *)
Theorem occupied_room_stays_occupied
    (r : route) (req : request) (s : store) (room : Store.room) :
  In room (rooms_tbl s) ->
  room_status room = Occupee ->
  In room (rooms_tbl (snd (app r req s))).
Proof.
  intros Hin Hst.
  destruct (app_store_cases r req s)
    as [-> | [(name & phone & ->)
           | [(number & type & price & s' & Hins & ->)
             | (client & rid & checkin & checkout & price & total & Hp & ->)]]].
  - exact Hin.
  - exact Hin.
  - destruct (insert_room_Some _ _ _ _ _ Hins) as (r0 & Hr & _).
    rewrite Hr. apply in_app_iff. now left.
  - rewrite booked_rooms. apply in_map_iff. exists room.
    split; [|exact Hin].
    destruct (text_eq_rowid rid (room_id room)); [|reflexivity].
    now apply occupy_occupied.
Qed.

Lemma occupied_room_stays_occupied_witness :
  let room := Room 1 "101" "Standard" (VReal (PyFloat.of_Z 100)) Occupee in
  In room (rooms_tbl
             (snd (app RBookings
                     (Examples.book "1" "1" "2026-02-01" "2026-02-03")
                     Examples.desk_booked))).
Proof.
  intros room.
  apply (occupied_room_stays_occupied RBookings _ Examples.desk_booked room).
  - left. vm_compute. reflexivity.
  - reflexivity.
Defined.

(** ** What a booking does to the rooms on offer *)

(** After a booking is created, the rooms with the status
    ['Disponible'] are those of before without the rooms the request
    named. *)
Theorem booked_room_leaves_the_offer
    req s client room checkin checkout price d_out d_in total :
  accepted req s client room checkin checkout price d_out d_in total ->
  available_rooms (snd (app RBookings req s)) =
    List.filter (fun r => negb (text_eq_rowid room (room_id r)))
      (available_rooms s).
Proof.
  intros Hacc. rewrite (bookings_post _ _ _ _ _ _ _ _ _ _ Hacc). cbn [snd].
  unfold available_rooms. rewrite booked_rooms.
  induction (rooms_tbl s) as [|r l IH]; [reflexivity|].
  cbn [map List.filter]. rewrite IH.
  destruct (text_eq_rowid room (room_id r)) eqn:Hsel.
  - cbn [occupy room_status].
    replace (String.eqb Occupee Disponible) with false by reflexivity.
    destruct (String.eqb (room_status r) Disponible); [|reflexivity].
    cbn [List.filter]. now rewrite Hsel.
  - destruct (String.eqb (room_status r) Disponible); [|reflexivity].
    cbn [List.filter]. now rewrite Hsel.
Qed.

Lemma booked_room_leaves_the_offer_witness :
  map room_number (available_rooms Examples.desk) = ["101"%string] /\
  available_rooms Examples.desk_booked = [].
Proof.
  split; [vm_compute; reflexivity|].
  assert (accepted (Examples.book "1" "1" "2026-01-10" "2026-01-12")
            Examples.desk "1" "1" "2026-01-10" "2026-01-12"
            (VReal (PyFloat.of_Z 100)) (PyDate.Date 2026 1 12)
            (PyDate.Date 2026 1 10) (VReal (PyFloat.of_Z 200))) as Hacc.
  { split; try (vm_compute; reflexivity). eexists. vm_compute. reflexivity. }
  unfold Examples.desk_booked.
  rewrite (booked_room_leaves_the_offer _ _ _ _ _ _ _ _ _ _ Hacc).
  vm_compute. reflexivity.
Defined.

(** ** Requests that fail *)

(** A POST that lacks a form field the view reads is answered with the
    [BadRequestKeyError] of the first field that is missing, and nothing
    is stored. *)
Theorem missing_field_rejected
    (r : route) (req : request) (s : store) (u : value) (k : string) :
  session req !! "user_id" = Some u ->
  method req = POST ->
  first_missing req (required r) = Some k ->
  app r req s = (Abort (BadRequestKeyError k), s).
Proof.
  intros Hu Hm Hk. unfold first_missing in Hk. unfold_views.
  destruct r as [| | | |id]; simpl in Hk; try discriminate Hk;
    rewrite Hm, Hu; simpl.
  - destruct (form req !! "name"); simpl; [|now injection Hk as <-].
    destruct (form req !! "phone"); simpl; [discriminate Hk|].
    now injection Hk as <-.
  - destruct (form req !! "number"); simpl; [|now injection Hk as <-].
    destruct (form req !! "type"); simpl; [|now injection Hk as <-].
    destruct (form req !! "price"); simpl; [discriminate Hk|].
    now injection Hk as <-.
  - destruct (form req !! "client_id"); simpl; [|now injection Hk as <-].
    destruct (form req !! "room_id"); simpl; [|now injection Hk as <-].
    destruct (form req !! "checkin"); simpl; [|now injection Hk as <-].
    destruct (form req !! "checkout"); simpl; [discriminate Hk|].
    now injection Hk as <-.
Qed.

Lemma missing_field_rejected_witness :
  app RRooms (Examples.post [("number", "102"); ("price", "80")]) Examples.desk
    = (Abort (BadRequestKeyError "type"), Examples.desk).
Proof.
  apply (missing_field_rejected RRooms _ Examples.desk (VInt 1)); reflexivity.
Defined.

(** A booking for a room key that matches no room is answered with a
    [TypeError], whatever the dates are, and nothing is stored. *)
Theorem booking_unknown_room_fails
    (req : request) (s : store) (u : value)
    (client room checkin checkout : string) :
  session req !! "user_id" = Some u ->
  method req = POST ->
  form req !! "client_id" = Some client ->
  form req !! "room_id" = Some room ->
  form req !! "checkin" = Some checkin ->
  form req !! "checkout" = Some checkout ->
  (forall r, In r (rooms_tbl s) -> text_eq_rowid room (room_id r) = false) ->
  app RBookings req s = (Abort TypeError, s).
Proof.
  intros Hu Hm Hc Hr Hi Ho Hnone.
  assert (select_price room s = None) as Hp.
  { unfold select_price.
    destruct (find _ _) as [r|] eqn:E; [|reflexivity].
    apply find_some in E as [Hin Hsel]. rewrite (Hnone r Hin) in Hsel.
    discriminate Hsel. }
  unfold_views. rewrite Hu, Hm. simpl. rewrite Hc, Hr, Hi, Ho. simpl.
  rewrite Hp. reflexivity.
Qed.

Lemma booking_unknown_room_fails_witness :
  app RBookings (Examples.book "1" "1.5" "soon" "later") Examples.desk
    = (Abort TypeError, Examples.desk).
Proof.
  apply (booking_unknown_room_fails _ Examples.desk (VInt 1)
           "1" "1.5" "soon" "later"); try reflexivity.
  intros r [<-|[]]. vm_compute. reflexivity.
Defined.

(** A booking for a room that exists with a date that does not parse is
    answered with a [ValueError] and nothing is stored. *)
Theorem booking_bad_date_fails
    (req : request) (s : store) (u : value)
    (client room checkin checkout : string) (price : value) :
  session req !! "user_id" = Some u ->
  method req = POST ->
  form req !! "client_id" = Some client ->
  form req !! "room_id" = Some room ->
  form req !! "checkin" = Some checkin ->
  form req !! "checkout" = Some checkout ->
  select_price room s = Some price ->
  PyDate.strptime checkout = None \/ PyDate.strptime checkin = None ->
  app RBookings req s = (Abort ValueError, s).
Proof.
  intros Hu Hm Hc Hr Hi Ho Hp Hbad.
  unfold_views. rewrite Hu, Hm. simpl. rewrite Hc, Hr, Hi, Ho. simpl.
  rewrite Hp.
  destruct (PyDate.strptime checkout) as [d_out|]; [|reflexivity].
  destruct Hbad as [Hbad|Hbad]; [discriminate Hbad|].
  rewrite Hbad. reflexivity.
Qed.

Lemma booking_bad_date_fails_witness :
  app RBookings (Examples.book "1" "1" "2026-02-29" "2026-03-01") Examples.desk
    = (Abort ValueError, Examples.desk).
Proof.
  apply (booking_bad_date_fails _ Examples.desk (VInt 1)
           "1" "1" "2026-02-29" "2026-03-01" (VReal (PyFloat.of_Z 100)));
    try reflexivity.
  right. vm_compute. reflexivity.
Defined.

(** ** Keys *)

Lemma sorted_snoc (l : list Z) (n : Z) :
  StronglySorted Z.lt l -> Forall (fun i => i < n) l ->
  StronglySorted Z.lt (l ++ [n]).
Proof.
  induction 1 as [|a l Hs IH Ha]; intros Hlt; simpl.
  - repeat constructor.
  - inversion Hlt as [|? ? Han Hl]; subst. constructor; [now apply IH|].
    apply Forall_app. split; [assumption | now constructor].
Qed.

Lemma next_rowid_positive (ids : list Z) (seq : Z) : 1 <= next_rowid ids seq.
Proof.
  unfold next_rowid.
  assert (0 <= foldr Z.max 0 ids) by (induction ids; simpl; lia). lia.
Qed.

Lemma keys_in_order_insert (ids : list Z) (seq : Z) :
  keys_in_order ids seq ->
  keys_in_order (ids ++ [next_rowid ids seq]) (next_rowid ids seq).
Proof.
  intros [Hs Hb]. split.
  - apply sorted_snoc; [assumption|]. apply List.Forall_forall.
    intros id Hin. now apply next_rowid_fresh.
  - apply Forall_app. split.
    + apply List.Forall_forall. intros id Hin.
      pose proof (next_rowid_fresh ids seq id Hin).
      apply (proj1 (List.Forall_forall _ _) Hb) in Hin. lia.
    + constructor; [|constructor].
      pose proof (next_rowid_positive ids seq). lia.
Qed.

Lemma sorted_NoDup (l : list Z) : StronglySorted Z.lt l -> List.NoDup l.
Proof.
  induction 1 as [|a l Hs IH Ha]; constructor; [|assumption].
  intros Hin. apply (proj1 (List.Forall_forall _ _) Ha) in Hin. lia.
Qed.

Lemma unique_by_key {A} (f : A -> Z) (l : list A) (x y : A) :
  List.NoDup (map f l) -> In x l -> In y l -> f x = f y -> x = y.
Proof.
  induction l as [|a l IH]; simpl; [tauto|].
  intros Hnd Hx Hy Hxy. inversion Hnd as [|? ? Hna Hnd']; subst.
  destruct Hx as [->|Hx], Hy as [->|Hy]; auto.
  - exfalso. apply Hna. rewrite Hxy. now apply in_map.
  - exfalso. apply Hna. rewrite <- Hxy. now apply in_map.
Qed.

Lemma keyed_init : keyed init_db.
Proof. split; split; constructor. Qed.

Lemma keyed_step (r : route) (req : request) (s : store) :
  keyed s -> keyed (snd (app r req s)).
Proof.
  intros [Hc Hr Hb].
  destruct (app_store_cases r req s)
    as [-> | [(name & phone & ->)
           | [(number & type & price & s' & Hins & ->)
             | (client & room & checkin & checkout & price & total & Hp & ->)]]].
  - now split.
  - split; [|assumption|assumption]. simpl. rewrite map_app. simpl.
    now apply keys_in_order_insert.
  - unfold insert_room in Hins. destruct (existsb _ _); [discriminate|].
    injection Hins as <-. split; [assumption| |assumption].
    simpl. rewrite map_app. simpl. now apply keys_in_order_insert.
  - split; [assumption| |].
    + rewrite booked_rooms.
      replace (map room_id (map _ (rooms_tbl s))) with (map room_id (rooms_tbl s));
        [assumption|].
      rewrite map_map. apply map_ext. intros r0.
      destruct (text_eq_rowid room (room_id r0)); reflexivity.
    + simpl. rewrite map_app. simpl. now apply keys_in_order_insert.
Qed.

Lemma keyed_reachable (s : store) : reachable s -> keyed s.
Proof.
  induction 1 as [|s r req Hreach IH]; [apply keyed_init|].
  now apply keyed_step.
Qed.

(** In every store the application reaches, the keys of each table are
    positive, strictly increasing in insertion order (so no two records
    of a table share a key) and never beyond the table's AUTOINCREMENT
    counter. *)
Theorem keys_follow_insertion_order (s : store) : reachable s -> keyed s.
Proof.
  intros Hreach. induction Hreach as [|s r req Hreach IH].
  - split; split; constructor.
  - apply keyed_step. exact IH.
Qed.

Lemma keys_follow_insertion_order_witness : keyed Examples.desk_booked.
Proof. exact (keys_follow_insertion_order _ desk_booked_reachable). Defined.

(** ** Room numbers and statuses *)

Lemma NoDup_append_one {A} (l : list A) (x : A) :
  List.NoDup l -> ~ In x l -> List.NoDup (l ++ [x]).
Proof.
  induction 1 as [|a l Ha Hnd IH]; simpl; intros Hx.
  - repeat constructor. intros [].
  - constructor.
    + intros Hin. apply in_app_iff in Hin as [Hin|[<-|[]]]; [auto|].
      apply Hx. now left.
    + apply IH. intros Hin. apply Hx. now right.
Qed.

(** In every store the application reaches no two rooms share a
    number. *)
Theorem room_numbers_are_unique (s : store) :
  reachable s -> List.NoDup (map room_number (rooms_tbl s)).
Proof.
  induction 1 as [|s r req Hreach IH]; [constructor|].
  destruct (app_store_cases r req s)
    as [-> | [(name & phone & ->)
           | [(number & type & price & s' & Hins & ->)
             | (client & room & checkin & checkout & price & total & Hp & ->)]]].
  - exact IH.
  - exact IH.
  - unfold insert_room in Hins.
    destruct (existsb _ _) eqn:E; [discriminate|].
    injection Hins as <-. simpl. rewrite map_app. simpl.
    apply NoDup_append_one; [exact IH|]. intros Hin.
    apply in_map_iff in Hin as (r0 & Hnum & Hin).
    assert (existsb (fun r => String.eqb (room_number r) number) (rooms_tbl s)
            = true) as E'.
    { apply existsb_exists. exists r0. split; [exact Hin|].
      now apply String.eqb_eq. }
    congruence.
  - rewrite booked_rooms.
    replace (map room_number (map _ (rooms_tbl s)))
      with (map room_number (rooms_tbl s)); [exact IH|].
    rewrite map_map. apply map_ext. intros r0.
    destruct (text_eq_rowid room (room_id r0)); reflexivity.
Qed.

Lemma room_numbers_are_unique_witness :
  List.NoDup (map room_number (rooms_tbl Examples.desk_booked)).
Proof. exact (room_numbers_are_unique _ desk_booked_reachable). Defined.

Lemma status_two_valued (s : store) :
  reachable s ->
  forall r, In r (rooms_tbl s) ->
    room_status r = Disponible \/ room_status r = Occupee.
Proof.
  induction 1 as [|s r req Hreach IH]; [intros ? []|].
  destruct (app_store_cases r req s)
    as [-> | [(name & phone & ->)
           | [(number & type & price & s' & Hins & ->)
             | (client & room & checkin & checkout & price & total & Hp & ->)]]].
  - exact IH.
  - exact IH.
  - destruct (insert_room_Some _ _ _ _ _ Hins)
      as (r0 & Hr & _ & _ & _ & _ & Hst & _).
    rewrite Hr. intros r1 Hin.
    apply in_app_iff in Hin as [Hin|[<-|[]]]; [now apply IH | now left].
  - intros r1 Hin.
    destruct (booked_room_status _ _ _ _ _ _ _ Hin) as (r0 & Hin0 & _ & Hst).
    destruct (text_eq_rowid room (room_id r0)); [now right|].
    subst r1. now apply IH.
Qed.

Lemma length_filter_split {A} (p q : A -> bool) (l : list A) :
  (forall x, In x l -> p x = negb (q x)) ->
  length l = (length (List.filter p l) + length (List.filter q l))%nat.
Proof.
  induction l as [|a l IH]; simpl; [reflexivity|]. intros H.
  rewrite (H a (or_introl eq_refl)).
  rewrite (IH (fun x Hx => H x (or_intror Hx))).
  destruct (q a); simpl; lia.
Qed.

(** On every store the application reaches, the dashboard's figure of
    available rooms is the number of rooms the booking page offers, and
    its figure of occupied rooms is the number of rooms that have at
    least one booking. *)
Theorem dashboard_figures (req : request) (s : store) (u : value) :
  reachable s ->
  session req !! "user_id" = Some u ->
  method req = GET ->
  exists revenue,
    app RDashboard req s =
      (Template "dashboard.html"
         (DashboardCtx
            (Z.of_nat (length (rooms_tbl s)))
            (Z.of_nat (length (List.filter
               (fun r => existsb (fun b => eq_rowid (booking_room b) (room_id r))
                           (bookings_tbl s))
               (rooms_tbl s))))
            (Z.of_nat (length (available_rooms s)))
            revenue), s).
Proof.
  intros Hreach Hu Hm. eexists. unfold_views. rewrite Hm, Hu. simpl.
  assert (count_occupied s =
          Z.of_nat (length (List.filter
               (fun r => existsb (fun b => eq_rowid (booking_room b) (room_id r))
                           (bookings_tbl s))
               (rooms_tbl s)))) as Hocc.
  { unfold count_occupied. f_equal. f_equal. apply filter_ext_in.
    intros r Hin.
    pose proof (inv_occupied s (occupancy_inv_reachable s Hreach) r Hin) as Hiff.
    destruct (String.eqb (room_status r) Occupee) eqn:E.
    - apply String.eqb_eq in E. symmetry. apply existsb_exists.
      now apply Hiff.
    - symmetry. apply not_true_is_false. intros Hex.
      apply existsb_exists in Hex. apply Hiff in Hex.
      apply String.eqb_neq in E. contradiction. }
  rewrite <- Hocc.
  assert (Z.of_nat (length (rooms_tbl s)) - count_occupied s
          = Z.of_nat (length (available_rooms s))) as ->; [|reflexivity].
  unfold count_occupied, available_rooms.
  rewrite (length_filter_split
             (fun r => String.eqb (room_status r) Occupee)
             (fun r => String.eqb (room_status r) Disponible) (rooms_tbl s)).
  - lia.
  - intros r Hin. destruct (status_two_valued s Hreach r Hin) as [-> | ->];
      reflexivity.
Qed.

Lemma dashboard_figures_witness :
  exists revenue,
    app RDashboard Examples.get Examples.desk_booked =
      (Template "dashboard.html" (DashboardCtx 1 1 0 revenue),
       Examples.desk_booked).
Proof.
  destruct (dashboard_figures Examples.get Examples.desk_booked (VInt 1)
              desk_booked_reachable eq_refl eq_refl) as [revenue H].
  exists revenue. exact H.
Defined.

(** ** Bookings and their rooms *)

Lemma rooms_key_unique (s : store) (x y : Store.room) :
  reachable s -> In x (rooms_tbl s) -> In y (rooms_tbl s) ->
  room_id x = room_id y -> x = y.
Proof.
  intros Hreach. apply unique_by_key, sorted_NoDup.
  apply (keyed_rooms s (keyed_reachable s Hreach)).
Qed.

(** In every store the application reaches, each booking references
    exactly one room record, although the foreign key is not enforced by
    the database. *)
Theorem booking_has_one_room (s : store) (b : booking) :
  reachable s ->
  In b (bookings_tbl s) ->
  exists r, In r (rooms_tbl s) /\ references b r /\
    forall r', In r' (rooms_tbl s) -> references b r' -> r' = r.
Proof.
  intros Hreach Hin.
  destruct (inv_room_exists s (occupancy_inv_reachable s Hreach) b Hin)
    as (r & Hr & Href).
  exists r. split; [exact Hr|]. split; [exact Href|].
  intros r' Hr' Href'. apply (rooms_key_unique s r' r Hreach Hr' Hr).
  exact (eq_rowid_functional _ _ _ Href' Href).
Qed.

Lemma booking_has_one_room_witness :
  let b := Booking 1 (VInt 1) (VInt 1) "2026-01-10" "2026-01-12"
             (VReal (PyFloat.of_Z 200)) in
  exists r, In r (rooms_tbl Examples.desk_booked) /\ references b r.
Proof.
  intros b.
  destruct (booking_has_one_room Examples.desk_booked b desk_booked_reachable)
    as (r & Hr & Href & _).
  - left. vm_compute. reflexivity.
  - exists r. split; [exact Hr | exact Href].
Defined.

(** On a store the application reaches, creating a booking changes
    exactly one room record: the room the request names becomes
    occupied and every other room is left as it was. *)
Theorem booking_occupies_one_room
    req s client room checkin checkout price d_out d_in total :
  reachable s ->
  accepted req s client room checkin checkout price d_out d_in total ->
  exists before r after,
    rooms_tbl s = before ++ r :: after /\
    text_eq_rowid room (room_id r) = true /\
    room_price r = price /\
    rooms_tbl (snd (app RBookings req s)) = before ++ occupy r :: after.
Proof.
  intros Hreach Hacc.
  rewrite (bookings_post _ _ _ _ _ _ _ _ _ _ Hacc). cbn [snd].
  rewrite booked_rooms.
  destruct (select_price_room _ _ _ (acc_price _ _ _ _ _ _ _ _ _ _ Hacc))
    as (r & Hin & Hsel & Hprice).
  destruct (in_split _ _ Hin) as (before & after & Hsplit).
  exists before, r, after. split; [exact Hsplit|]. split; [exact Hsel|].
  split; [exact Hprice|].
  assert (forall r', In r' (before ++ after) ->
            text_eq_rowid room (room_id r') = false) as Hother.
  { intros r' Hin'. apply not_true_is_false. intros Hsel'.
    pose proof (keyed_rooms s (keyed_reachable s Hreach))
      as [Hsorted _].
    apply sorted_NoDup in Hsorted. rewrite Hsplit, map_app in Hsorted.
    simpl in Hsorted. apply NoDup_remove_2 in Hsorted. apply Hsorted.
    rewrite <- map_app.
    replace (room_id r) with (room_id r')
      by exact (eq_rowid_functional _ _ _ Hsel' Hsel).
    now apply in_map. }
  rewrite Hsplit, map_app. simpl. rewrite Hsel. f_equal; [|f_equal].
  - rewrite <- (map_id before) at 2. apply map_ext_in. intros r' Hin'.
    rewrite (Hother r'); [reflexivity|]. apply in_app_iff. now left.
  - rewrite <- (map_id after) at 2. apply map_ext_in. intros r' Hin'.
    rewrite (Hother r'); [reflexivity|]. apply in_app_iff. now right.
Qed.

Lemma desk_reachable : reachable Examples.desk.
Proof.
  exact (reachable_step _ RRooms _ (reachable_step _ RClients _ reachable_init)).
Defined.

Lemma first_booking_accepted :
  accepted (Examples.book "1" "1" "2026-01-10" "2026-01-12")
    Examples.desk "1" "1" "2026-01-10" "2026-01-12"
    (VReal (PyFloat.of_Z 100)) (PyDate.Date 2026 1 12) (PyDate.Date 2026 1 10)
    (VReal (PyFloat.of_Z 200)).
Proof.
  split; try (vm_compute; reflexivity). eexists. vm_compute. reflexivity.
Defined.

Lemma booking_occupies_one_room_witness :
  exists before r after,
    rooms_tbl Examples.desk = before ++ r :: after /\
    rooms_tbl Examples.desk_booked = before ++ occupy r :: after.
Proof.
  destruct (booking_occupies_one_room _ _ _ _ _ _ _ _ _ _
              desk_reachable first_booking_accepted)
    as (before & r & after & H1 & _ & _ & H2).
  exists before, r, after. split; [exact H1 | exact H2].
Defined.

(** ** The booking history *)

Lemma filter_at_most_one {A} (f : A -> Z) (p : A -> bool) (l : list A) :
  List.NoDup (map f l) ->
  (forall x y, p x = true -> p y = true -> f x = f y) ->
  (length (List.filter p l) <= 1)%nat.
Proof.
  intros Hnd Hp. induction l as [|a l IH]; simpl; [lia|].
  inversion Hnd as [|? ? Hna Hnd']; subst. specialize (IH Hnd').
  destruct (p a) eqn:Ha; [|exact IH]. simpl.
  destruct (List.filter p l) as [|y k] eqn:E; [simpl; lia|]. exfalso.
  assert (In y (List.filter p l)) as Hy by (rewrite E; now left).
  apply filter_In in Hy as [Hin Hpy]. apply Hna.
  rewrite (Hp a y Ha Hpy). now apply in_map.
Qed.

Lemma keys_of_single_rows {A B} (kA : A -> Z) (key : B -> Z)
    (g : A -> list B) (l : list A) :
  List.NoDup (map kA l) ->
  (forall a, (length (g a) <= 1)%nat) ->
  (forall a j, In j (g a) -> key j = kA a) ->
  List.NoDup (map key (flat_map g l)).
Proof.
  intros Hnd Hone Hkey. induction l as [|a l IH]; simpl; [constructor|].
  inversion Hnd as [|? ? Hna Hnd']; subst. specialize (IH Hnd').
  pose proof (Hone a) as Hlen. pose proof (Hkey a) as Hka.
  destruct (g a) as [|j [|j' k]]; simpl in *; [exact IH| |lia].
  constructor; [|exact IH]. intros Hin.
  apply in_map_iff in Hin as (j1 & Hj1 & Hin).
  apply in_flat_map in Hin as (a1 & Ha1 & Hin).
  apply Hna. rewrite <- (Hka j (or_introl eq_refl)), <- Hj1, (Hkey a1 j1 Hin).
  now apply in_map.
Qed.

Lemma join_rows_single (s : store) (b : booking) :
  reachable s ->
  (length
     (flat_map (fun c =>
        map (fun r => Joined b c r)
          (List.filter (fun r => eq_rowid (booking_room b) (room_id r))
             (rooms_tbl s)))
        (List.filter (fun c => eq_rowid (booking_client b) (client_id c))
           (clients_tbl s))) <= 1)%nat.
Proof.
  intros Hreach.
  pose proof (keyed_reachable s Hreach) as [[Hc _] [Hr _] _].
  apply sorted_NoDup in Hc, Hr.
  pose proof (filter_at_most_one client_id
                (fun c => eq_rowid (booking_client b) (client_id c))
                (clients_tbl s) Hc
                (fun x y Hx Hy => eq_rowid_functional _ _ _ Hx Hy)) as Hcl.
  pose proof (filter_at_most_one room_id
                (fun r => eq_rowid (booking_room b) (room_id r))
                (rooms_tbl s) Hr
                (fun x y Hx Hy => eq_rowid_functional _ _ _ Hx Hy)) as Hrl.
  destruct (List.filter _ (clients_tbl s)) as [|c [|c' k]]; simpl in *;
    [lia| |lia].
  rewrite app_nil_r, length_map. exact Hrl.
Qed.

(** On every store the application reaches, the booking history shows
    each booking at most once, and it shows a booking exactly when the
    client key the booking was created with matches a client record: a
    booking created for a client that does not exist is stored and
    silently absent from the history. *)
Theorem history_shows_bookings_with_a_client (s : store) :
  reachable s ->
  List.NoDup (map line_id (booking_lines s)) /\
  forall b, In b (bookings_tbl s) ->
    ((exists line, In line (booking_lines s) /\
        line_id line = booking_id b /\
        line_checkin line = booking_checkin b /\
        line_checkout line = booking_checkout b /\
        line_total line = booking_total b) <->
     (exists c, In c (clients_tbl s) /\
        eq_rowid (booking_client b) (client_id c) = true)).
Proof.
  intros Hreach.
  pose proof (keyed_reachable s Hreach) as [_ _ [Hb _]].
  apply sorted_NoDup in Hb. split.
  - unfold booking_lines. rewrite map_map. simpl. unfold join_bookings.
    apply (keys_of_single_rows booking_id
             (fun j => booking_id (j_booking j))); [exact Hb| |].
    + intros b. now apply join_rows_single.
    + intros b j Hin. apply in_flat_map in Hin as (c & _ & Hin).
      apply in_map_iff in Hin as (r & <- & _). reflexivity.
  - intros b Hin. split.
    + intros (line & Hline & Hid & _).
      apply in_map_iff in Hline as (j & <- & Hj). simpl in Hid.
      apply In_join_bookings in Hj as (Hjb & Hjc & Hce & _).
      rewrite (unique_by_key booking_id _ _ _ Hb Hjb Hin Hid) in Hce.
      eauto.
    + intros (c & Hc & Hce).
      destruct (inv_room_exists s (occupancy_inv_reachable s Hreach) b Hin)
        as (r & Hr & Href).
      eexists. split.
      * apply in_map_iff. exists (Joined b c r). split; [reflexivity|].
        apply In_join_bookings. simpl. auto.
      * simpl. auto.
Qed.

Lemma history_shows_bookings_with_a_client_witness :
  List.NoDup (map line_id (booking_lines Examples.desk_booked)).
Proof.
  exact (proj1 (history_shows_bookings_with_a_client _ desk_booked_reachable)).
Defined.

(** ** From a booking to its invoice *)



(** ** Logging in and out *)

Lemma anonymous_page_unchanged (r : route) (req : request) (s : store) :
  session req !! "user_id" = None -> snd (app r req s) = s.
Proof.
  intros H. rewrite app_dispatch.
  destruct r, (method req); try reflexivity;
    unfold dashboard, clients, rooms, bookings, invoice;
    now rewrite run_login_required_anonymous.
Qed.

Section Gate.

Variable check_password_hash : string -> string -> bool.

(** A session that holds no [user_id] gets one from exactly one kind of
    request: a POST to [login] that names an existing user with a
    password the hash check accepts. Any other request, to any route,
    hands an anonymous session back anonymous. *)
Theorem only_login_opens_a_session
    (e : Auth.endpoint) (req : request) (d : Auth.database) :
  session req !! "user_id" = None ->
  (is_Some (Auth.out_session (Auth.serve check_password_hash e req d)
              !! "user_id") <->
   exists username password user,
     e = Auth.Login /\ method req = POST /\
     form req !! "username" = Some username /\
     form req !! "password" = Some password /\
     Auth.select_user username (Auth.users_tbl d) = Some user /\
     check_password_hash (Auth.user_password user) password = true).
Proof.
  intros Hanon. split.
  - intros Hsome. destruct e as [| |r]; simpl in Hsome.
    + unfold Auth.login in Hsome.
      destruct (method req) eqn:Hm;
        [simpl in Hsome; rewrite Hanon in Hsome; now destruct Hsome|].
      destruct (form req !! "username") as [username|] eqn:Hn;
        [|simpl in Hsome; rewrite Hanon in Hsome; now destruct Hsome].
      destruct (form req !! "password") as [password|] eqn:Hp;
        [|simpl in Hsome; rewrite Hanon in Hsome; now destruct Hsome].
      destruct (Auth.select_user username (Auth.users_tbl d)) as [user|] eqn:Hu;
        [|simpl in Hsome; rewrite Hanon in Hsome; now destruct Hsome].
      destruct (check_password_hash (Auth.user_password user) password) eqn:Hc;
        [|simpl in Hsome; rewrite Hanon in Hsome; now destruct Hsome].
      exists username, password, user. auto 10.
    + exfalso. unfold Auth.logout in Hsome.
      destruct (method req); [rewrite Hanon in Hsome|]; simpl in Hsome;
        rewrite Hanon in Hsome; now destruct Hsome.
    + exfalso. destruct (app r req (Auth.hotel d)). simpl in Hsome.
      rewrite Hanon in Hsome. now destruct Hsome.
  - intros (username & password & user & -> & Hm & Hn & Hp & Hu & Hc).
    simpl. unfold Auth.login. rewrite Hm, Hn, Hp, Hu, Hc. simpl.
    rewrite lookup_insert_ne by discriminate.
    rewrite lookup_insert_ne by discriminate.
    rewrite lookup_insert_eq. eauto.
Qed.

(** After a login that succeeds, the session handed back holds the
    key, the name and the role of the user, and no page of the hotel
    answers the next request of that browser with the redirect to the
    login page. *)
Theorem login_opens_the_gate
    (req : request) (d : Auth.database) (username password : string)
    (user : Auth.user) (r : route) (m : http_method)
    (fields : gmap string string) (s : store) :
  method req = POST ->
  form req !! "username" = Some username ->
  form req !! "password" = Some password ->
  Auth.select_user username (Auth.users_tbl d) = Some user ->
  check_password_hash (Auth.user_password user) password = true ->
  let o := Auth.serve check_password_hash Auth.Login req d in
  Auth.out_reply o = Auth.Core (Redirect "dashboard") /\
  Auth.out_database o = d /\
  Auth.out_session o !! "user_id" = Some (VInt (Auth.user_id user)) /\
  Auth.out_session o !! "username" = Some (VText username) /\
  Auth.out_session o !! "role" = Some (VText (Auth.user_role user)) /\
  fst (app r (follow_up o m fields) s) <> Redirect "login".
Proof.
  intros Hm Hn Hp Hu Hc o.
  assert (o = Auth.Outcome (Auth.Core (Redirect "dashboard"))
                (<["role" := VText (Auth.user_role user)]>
                   (<["username" := VText (Auth.user_username user)]>
                      (<["user_id" := VInt (Auth.user_id user)]>
                         (session req)))) d) as Ho.
  { subst o. simpl. unfold Auth.login. now rewrite Hm, Hn, Hp, Hu, Hc. }
  assert (Auth.user_username user = username) as Hname.
  { unfold Auth.select_user in Hu. apply find_some in Hu as [_ Hu].
    now apply String.eqb_eq in Hu. }
  rewrite Ho.
  set (o' := Auth.Outcome (Auth.Core (Redirect "dashboard"))
               (<["role" := VText (Auth.user_role user)]>
                  (<["username" := VText (Auth.user_username user)]>
                     (<["user_id" := VInt (Auth.user_id user)]>
                        (session req)))) d).
  cbn [Auth.out_reply Auth.out_database Auth.out_session o'].
  assert (forall (x : gmap string value),
            <["role" := VText (Auth.user_role user)]>
              (<["username" := VText (Auth.user_username user)]>
                 (<["user_id" := VInt (Auth.user_id user)]> x)) !! "user_id"
            = Some (VInt (Auth.user_id user))) as Hid.
  { intros x. rewrite lookup_insert_ne by discriminate.
    rewrite lookup_insert_ne by discriminate. apply lookup_insert_eq. }
  split; [reflexivity|]. split; [reflexivity|]. split; [apply Hid|].
  split.
  { rewrite lookup_insert_ne by discriminate. rewrite lookup_insert_eq.
    now rewrite Hname. }
  split; [apply lookup_insert_eq|].
  destruct (accepts r (method (follow_up o' m fields))) eqn:Hacc.
  - eapply authenticated_request_passes; [|exact Hacc].
    unfold follow_up. cbn [session Auth.out_session]. apply Hid.
  - rewrite (undeclared_method_refused _ _ _ Hacc). discriminate.
Qed.

(** After [logout], whatever session asked for it, every page of the
    hotel answers the next request of that browser with the redirect to
    the login page and leaves the database as it is. *)
Theorem logout_closes_the_gate
    (req : request) (d : Auth.database) (r : route) (m : http_method)
    (fields : gmap string string) (s : store) :
  method req = GET ->
  accepts r m = true ->
  let o := Auth.serve check_password_hash Auth.Logout req d in
  Auth.out_reply o = Auth.Core (Redirect "login") /\
  Auth.out_database o = d /\
  app r (follow_up o m fields) s = (Redirect "login", s).
Proof.
  intros Hm Hacc o.
  assert (Auth.out_reply o = Auth.Core (Redirect "login") /\
          Auth.out_database o = d /\
          Auth.out_session o !! "user_id" = None) as (Hr & Hd & Hs).
  { subst o. simpl. rewrite Hm. unfold Auth.logout.
    destruct (session req !! "user_id") eqn:E; simpl; auto. }
  split; [exact Hr|]. split; [exact Hd|].
  assert (session (follow_up o m fields) !! "user_id" = None) as Hanon
    by exact Hs.
  pose proof (anonymous_page_unchanged r (follow_up o m fields) s Hanon)
    as Hsnd.
  pose proof (anonymous_request_redirected r (follow_up o m fields) s
                Hanon Hacc) as Hfst.
  destruct (app r (follow_up o m fields) s) as [resp s'].
  simpl in Hsnd, Hfst. now rewrite Hsnd, Hfst.
Qed.

End Gate.

Lemma only_login_opens_a_session_witness :
  is_Some
    (Auth.out_session
       (Auth.serve tagged_check Auth.Login
          (Examples.anonymous_post
             [("username", "admin"); ("password", "admin123")])
          (Auth.init_db "plain:admin123" Auth.new_file)) !! "user_id").
Proof.
  refine (proj2 (only_login_opens_a_session tagged_check Auth.Login _ _ _) _);
    [reflexivity|].
  exists "admin"%string, "admin123"%string,
    (Auth.User 1 "admin" "plain:admin123" "admin").
  repeat split; reflexivity.
Defined.

Lemma login_opens_the_gate_witness :
  let o := Auth.serve tagged_check Auth.Login
             (Examples.anonymous_post
                [("username", "admin"); ("password", "admin123")])
             (Auth.init_db "plain:admin123" Auth.new_file) in
  Auth.out_session o !! "user_id" = Some (VInt 1) /\
  fst (app RDashboard (follow_up o GET ∅) Examples.desk) <> Redirect "login".
Proof.
  intros o.
  destruct (login_opens_the_gate tagged_check
              (Examples.anonymous_post
                 [("username", "admin"); ("password", "admin123")])
              (Auth.init_db "plain:admin123" Auth.new_file)
              "admin" "admin123"
              (Auth.User 1 "admin" "plain:admin123" "admin")
              RDashboard GET ∅ Examples.desk)
    as (_ & _ & Hid & _ & _ & Hopen); try reflexivity.
  split; [exact Hid | exact Hopen].
Defined.

Lemma logout_closes_the_gate_witness :
  let o := Auth.serve tagged_check Auth.Logout Examples.get
             (Auth.init_db "plain:admin123" Auth.new_file) in
  app RDashboard (follow_up o GET ∅) Examples.desk
    = (Redirect "login", Examples.desk).
Proof.
  intros o.
  destruct (logout_closes_the_gate tagged_check Examples.get
              (Auth.init_db "plain:admin123" Auth.new_file)
              RDashboard GET ∅ Examples.desk eq_refl eq_refl) as (_ & _ & H).
  exact H.
Defined.

(** ** [init_db] *)

Lemma find_snoc {A} (p : A -> bool) (l : list A) (x : A) :
  find p l = None -> p x = true -> find p (l ++ [x]) = Some x.
Proof.
  induction l as [|a l IH]; simpl; intros Hnone Hx; [now rewrite Hx|].
  destruct (p a); [discriminate|]. now apply IH.
Qed.

Lemma init_db_admin (hashed : string) (f : Auth.dbfile) :
  exists u,
    Auth.select_user "admin" (Auth.users_tbl (Auth.init_db hashed f)) = Some u.
Proof.
  unfold Auth.init_db.
  destruct (Auth.create_table_if_not_exists (Auth.file_users f)) as [users useq].
  destruct (Auth.create_table_if_not_exists (Auth.file_clients f)).
  destruct (Auth.create_table_if_not_exists (Auth.file_rooms f)).
  destruct (Auth.create_table_if_not_exists (Auth.file_bookings f)).
  destruct (Auth.select_user "admin" users) as [u|] eqn:E; simpl.
  - eauto.
  - eexists. unfold Auth.select_user in *. now apply find_snoc.
Qed.

(** [init_db] keeps what it finds: a table that exists is left as it
    is, the users that exist stay first in their table, and a user named
    admin is there afterwards. Running it again changes nothing, even
    with another hash: the password of an admin that exists is never
    reset. *)
Theorem init_db_keeps_what_exists (hashed again : string) (f : Auth.dbfile) :
  let d := Auth.init_db hashed f in
  Auth.init_db again (Auth.file_of d) = d /\
  (forall rows seq, Auth.file_clients f = Some (rows, seq) ->
     clients_tbl (Auth.hotel d) = rows /\ clients_seq (Auth.hotel d) = seq) /\
  (forall rows seq, Auth.file_rooms f = Some (rows, seq) ->
     rooms_tbl (Auth.hotel d) = rows /\ rooms_seq (Auth.hotel d) = seq) /\
  (forall rows seq, Auth.file_bookings f = Some (rows, seq) ->
     bookings_tbl (Auth.hotel d) = rows /\ bookings_seq (Auth.hotel d) = seq) /\
  (forall users seq, Auth.file_users f = Some (users, seq) ->
     exists new, Auth.users_tbl d = users ++ new) /\
  (exists u, In u (Auth.users_tbl d) /\ Auth.user_username u = "admin"%string).
Proof.
  intros d. split; [|split; [|split; [|split; [|split]]]].
  - destruct (init_db_admin hashed f) as [u Hu]. fold d in Hu.
    unfold Auth.init_db at 1. simpl. rewrite Hu.
    destruct d as [users useq [? ? ? ? ? ?]]. reflexivity.
  - intros rows seq H. subst d. unfold Auth.init_db. rewrite H. simpl.
    destruct (Auth.create_table_if_not_exists (Auth.file_users f)).
    destruct (Auth.create_table_if_not_exists (Auth.file_rooms f)).
    destruct (Auth.create_table_if_not_exists (Auth.file_bookings f)).
    destruct (Auth.select_user _ _); simpl; auto.
  - intros rows seq H. subst d. unfold Auth.init_db. rewrite H. simpl.
    destruct (Auth.create_table_if_not_exists (Auth.file_users f)).
    destruct (Auth.create_table_if_not_exists (Auth.file_clients f)).
    destruct (Auth.create_table_if_not_exists (Auth.file_bookings f)).
    destruct (Auth.select_user _ _); simpl; auto.
  - intros rows seq H. subst d. unfold Auth.init_db. rewrite H. simpl.
    destruct (Auth.create_table_if_not_exists (Auth.file_users f)).
    destruct (Auth.create_table_if_not_exists (Auth.file_clients f)).
    destruct (Auth.create_table_if_not_exists (Auth.file_rooms f)).
    destruct (Auth.select_user _ _); simpl; auto.
  - intros users seq H. subst d. unfold Auth.init_db. rewrite H. simpl.
    destruct (Auth.create_table_if_not_exists (Auth.file_clients f)).
    destruct (Auth.create_table_if_not_exists (Auth.file_rooms f)).
    destruct (Auth.create_table_if_not_exists (Auth.file_bookings f)).
    destruct (Auth.select_user _ _); simpl.
    + exists []. now rewrite app_nil_r.
    + eexists. reflexivity.
  - destruct (init_db_admin hashed f) as [u Hu]. fold d in Hu.
    unfold Auth.select_user in Hu. apply find_some in Hu as [Hin Hname].
    exists u. split; [exact Hin | now apply String.eqb_eq].
Qed.

(** On a database where no user was named admin before [init_db] ran,
    the user it creates logs in with the password admin123 (given that
    the hash [init_db] stored checks against it) and gets a session with
    the role admin. *)
Theorem default_admin_logs_in
    (check_password_hash : string -> string -> bool)
    (hashed : string) (f : Auth.dbfile) (req : request) :
  (forall users seq, Auth.file_users f = Some (users, seq) ->
     Auth.select_user "admin" users = None) ->
  check_password_hash hashed "admin123" = true ->
  method req = POST ->
  form req !! "username" = Some "admin"%string ->
  form req !! "password" = Some "admin123"%string ->
  let o := Auth.serve check_password_hash Auth.Login req
             (Auth.init_db hashed f) in
  Auth.out_reply o = Auth.Core (Redirect "dashboard") /\
  Auth.out_session o !! "role" = Some (VText "admin") /\
  exists id, Auth.out_session o !! "user_id" = Some (VInt id) /\ 1 <= id.
Proof.
  intros Hnone Hcheck Hm Hn Hp o.
  assert (exists id,
            1 <= id /\
            Auth.select_user "admin" (Auth.users_tbl (Auth.init_db hashed f))
            = Some (Auth.User id "admin" hashed "admin")) as (id & Hid & Hu).
  { unfold Auth.init_db.
    destruct (Auth.file_users f) as [[users useq]|] eqn:E; simpl.
    - rewrite (Hnone users useq eq_refl).
      destruct (Auth.create_table_if_not_exists (Auth.file_clients f)).
      destruct (Auth.create_table_if_not_exists (Auth.file_rooms f)).
      destruct (Auth.create_table_if_not_exists (Auth.file_bookings f)).
      simpl. eexists. split; [apply next_rowid_positive|].
      unfold Auth.select_user. apply find_snoc; [|reflexivity].
      exact (Hnone users useq eq_refl).
    - destruct (Auth.create_table_if_not_exists (Auth.file_clients f)).
      destruct (Auth.create_table_if_not_exists (Auth.file_rooms f)).
      destruct (Auth.create_table_if_not_exists (Auth.file_bookings f)).
      simpl. exists 1. split; [lia | reflexivity]. }
  subst o. simpl. unfold Auth.login. rewrite Hm, Hn, Hp, Hu. simpl.
  rewrite Hcheck. simpl. split; [reflexivity|].
  split; [apply lookup_insert_eq|]. exists id. split; [|exact Hid].
  rewrite lookup_insert_ne by discriminate.
  rewrite lookup_insert_ne by discriminate. apply lookup_insert_eq.
Qed.

Lemma default_admin_logs_in_witness :
  let o := Auth.serve tagged_check Auth.Login
             (Examples.anonymous_post
                [("username", "admin"); ("password", "admin123")])
             (Auth.init_db "plain:admin123" Auth.new_file) in
  Auth.out_reply o = Auth.Core (Redirect "dashboard") /\
  Auth.out_session o !! "role" = Some (VText "admin").
Proof.
  intros o.
  destruct (default_admin_logs_in tagged_check "plain:admin123" Auth.new_file
              (Examples.anonymous_post
                 [("username", "admin"); ("password", "admin123")]))
    as (Hr & Hrole & _); try reflexivity.
  - intros users seq H. discriminate H.
  - split; [exact Hr | exact Hrole].
Defined.

(** ** Backups *)

Lemma length_append (a b : string) :
  String.length (a ++ b)%string = (String.length a + String.length b)%nat.
Proof.
  induction a as [|c a IH]; [reflexivity | exact (f_equal S IH)].
Qed.

Lemma append_inj_suffix (a a' b b' : string) :
  String.length b = String.length b' ->
  (a ++ b)%string = (a' ++ b')%string -> a = a' /\ b = b'.
Proof.
  revert a'. induction a as [|c a IH]; intros [|c' a'] Hlen H.
  - split; [reflexivity | exact H].
  - exfalso. apply (f_equal String.length) in H.
    change (String.length b = S (String.length (a' ++ b')%string)) in H.
    rewrite length_append in H. lia.
  - exfalso. apply (f_equal String.length) in H.
    change (S (String.length (a ++ b)%string) = String.length b') in H.
    rewrite length_append in H. lia.
  - change (String c (a ++ b)%string = String c' (a' ++ b')%string) in H.
    injection H as -> H. destruct (IH a' Hlen H) as [-> ->]. auto.
Qed.

Lemma str_of_Z_inj (a b : Z) :
  1 <= a -> 1 <= b -> Chars.str_of_Z a = Chars.str_of_Z b -> a = b.
Proof.
  intros Ha Hb. destruct a as [|p|p], b as [|q|q]; try lia. simpl. intros H.
  apply (f_equal NilEmpty.uint_of_string) in H.
  rewrite !NilEmpty.usu in H. injection H as H.
  apply Unsigned.to_uint_inj in H. now subst.
Qed.

Lemma digit_inj (a b : Z) :
  0 <= a <= 9 -> 0 <= b <= 9 -> Backup.digit a = Backup.digit b -> a = b.
Proof.
  intros Ha Hb H. unfold Backup.digit in H.
  apply (f_equal N_of_ascii) in H.
  rewrite !N_ascii_embedding in H by lia. lia.
Qed.

Lemma pad2_inj (a b : Z) :
  0 <= a < 100 -> 0 <= b < 100 -> Backup.pad2 a = Backup.pad2 b -> a = b.
Proof.
  intros Ha Hb H. unfold Backup.pad2 in H. injection H as H1 H0.
  assert (0 <= a / 10 <= 9 /\ 0 <= b / 10 <= 9) as [Hqa Hqb].
  { assert (a / 10 < 10) by (apply Z.div_lt_upper_bound; lia).
    assert (b / 10 < 10) by (apply Z.div_lt_upper_bound; lia).
    assert (0 <= a / 10) by (apply Z.div_pos; lia).
    assert (0 <= b / 10) by (apply Z.div_pos; lia). lia. }
  pose proof (Z.mod_pos_bound a 10). pose proof (Z.mod_pos_bound b 10).
  apply digit_inj in H1; [|exact Hqa|exact Hqb].
  apply digit_inj in H0; [|lia|lia].
  rewrite (Z.div_mod a 10), (Z.div_mod b 10) by lia. now rewrite H1, H0.
Qed.

Lemma pad2_append (n : Z) (s : string) :
  (Backup.pad2 n ++ s)%string =
    String (Backup.digit (n / 10)) (String (Backup.digit (n mod 10)) s).
Proof. reflexivity. Qed.

Lemma backup_name_inj (t1 t2 : Backup.datetime) :
  valid_datetime t1 -> valid_datetime t2 ->
  Backup.backup_name t1 = Backup.backup_name t2 -> t1 = t2.
Proof.
  intros [Hy1 Hm1 Hd1 Hh1 Hn1 Hs1] [Hy2 Hm2 Hd2 Hh2 Hn2 Hs2] H.
  unfold Backup.backup_name in H. apply String.app_inj in H.
  apply append_inj_suffix in H as [H _]; [|reflexivity].
  unfold Backup.strftime in H.
  apply append_inj_suffix in H as [Hy H]; [|reflexivity].
  apply str_of_Z_inj in Hy; [|lia|lia].
  rewrite !pad2_append in H.
  injection H as Em1 Em0 Ed1 Ed0 Eh1 Eh0 En1 En0 Es1 Es0.
  assert (Backup.pad2 (Backup.month t1) = Backup.pad2 (Backup.month t2)) as Hm
    by (unfold Backup.pad2; congruence).
  assert (Backup.pad2 (Backup.day t1) = Backup.pad2 (Backup.day t2)) as Hd
    by (unfold Backup.pad2; congruence).
  assert (Backup.pad2 (Backup.hour t1) = Backup.pad2 (Backup.hour t2)) as Hh
    by (unfold Backup.pad2; congruence).
  assert (Backup.pad2 (Backup.minute t1) = Backup.pad2 (Backup.minute t2))
    as Hn by (unfold Backup.pad2; congruence).
  assert (Backup.pad2 (Backup.second t1) = Backup.pad2 (Backup.second t2))
    as Hs by (unfold Backup.pad2; congruence).
  apply pad2_inj in Hm, Hd, Hh, Hn, Hs; try lia.
  destruct t1, t2. simpl in *. congruence.
Qed.

(** Two backups never share a name unless they are taken in the same
    second, so a backup is never overwritten by one taken at another
    time: after a backup at [t1], any change of the database and a
    backup at [t2], the directory holds the new database under the name
    of [t2] and still holds the old one under the name of [t1]. *)
Theorem later_backup_keeps_the_earlier
    (t1 t2 : Backup.datetime) (db1 db2 : Auth.dbfile)
    (files : gmap string Auth.dbfile) :
  valid_datetime t1 ->
  valid_datetime t2 ->
  (Backup.backup_name t1 = Backup.backup_name t2 <-> t1 = t2) /\
  exists files1 files2,
    Backup.backup_db t1 (Backup.Disk (Some db1) (Some files))
      = Some (Backup.Disk (Some db1) (Some files1)) /\
    Backup.backup_db t2 (Backup.Disk (Some db2) (Some files1))
      = Some (Backup.Disk (Some db2) (Some files2)) /\
    files2 !! Backup.backup_name t2 = Some db2 /\
    (t1 <> t2 -> files2 !! Backup.backup_name t1 = Some db1).
Proof.
  intros Hv1 Hv2. split.
  - split; [now apply backup_name_inj | now intros ->].
  - eexists _, _. split; [reflexivity|]. split; [reflexivity|].
    split; [apply lookup_insert_eq|]. intros Hne.
    rewrite lookup_insert_ne.
    + apply lookup_insert_eq.
    + intros Heq. apply Hne. symmetry. now apply backup_name_inj.
Qed.

Lemma later_backup_keeps_the_earlier_witness :
  let t1 := Backup.DateTime 2026 11 3 9 0 0 in
  let t2 := Backup.DateTime 2026 11 3 9 0 1 in
  Backup.backup_name t1 = "hotel_backup_20261103_090000.db"%string /\
  Backup.backup_name t1 <> Backup.backup_name t2.
Proof.
  intros t1 t2. split; [reflexivity|].
  assert (valid_datetime t1) as Hv1 by (split; simpl; lia).
  assert (valid_datetime t2) as Hv2 by (split; simpl; lia).
  destruct (later_backup_keeps_the_earlier t1 t2 Auth.new_file Auth.new_file ∅
              Hv1 Hv2) as [Hiff _].
  intros Heq. apply Hiff in Heq. discriminate Heq.
Defined.

(** ** The length of a stay *)

Lemma orelse_Some {A} (a b : option A) (x : A) :
  PyDate.orelse a b = Some x -> a = Some x \/ b = Some x.
Proof. destruct a; simpl; auto. Qed.

Lemma in_range_code (lo hi : ascii) (c : Z) :
  PyDate.in_range lo hi c = true ->
  Chars.code lo <= c <= Chars.code hi.
Proof. unfold PyDate.in_range. intros H. apply andb_true_iff in H. lia. Qed.

Lemma is_char_code (a : ascii) (c : Z) :
  PyDate.is_char a c = true -> c = Chars.code a.
Proof. unfold PyDate.is_char. apply Z.eqb_eq. Qed.

(** A decimal digit has a value from zero to nine. *)
Lemma decimal_value (c v : Z) : Unicode.decimal c = Some v -> 0 <= v <= 9.
Proof.
  unfold Unicode.decimal. destruct (find _ _) as [zero|] eqn:E; [|discriminate].
  apply find_some in E as [_ E]. apply andb_true_iff in E.
  intros [= <-]. lia.
Qed.

(** The ASCII digits are decimal digits, with the value of the digit. *)
Lemma decimal_ascii (c : Z) : 48 <= c <= 57 -> Unicode.decimal c = Some (c - 48).
Proof.
  intros H. unfold Unicode.decimal, Unicode.decimal_zeros.
  cbn [List.find].
  assert ((48 <=? c) && (c <? 48 + 10) = true) as ->
    by (apply andb_true_iff; lia).
  reflexivity.
Qed.

Lemma is_decimal_value (c : Z) :
  Unicode.is_decimal c = true -> exists v, Unicode.decimal c = Some v /\ 0 <= v <= 9.
Proof.
  unfold Unicode.is_decimal. destruct (Unicode.decimal c) as [v|] eqn:E;
    [|discriminate].
  intros _. exists v. split; [reflexivity|]. now apply (decimal_value c).
Qed.

Lemma re_two_Some {A} p1 p2 l (k : Z -> list Z -> option A) x :
  PyDate.re_two p1 p2 l k = Some x ->
  exists a b r, p1 a = true /\ p2 b = true /\
    k (Unicode.int [a; b]) r = Some x.
Proof.
  unfold PyDate.re_two. destruct l as [|a [|b r]]; try discriminate.
  destruct (p1 a) eqn:Ha; [|discriminate].
  destruct (p2 b) eqn:Hb; [|discriminate]. simpl. eauto 8.
Qed.

Lemma re_one_Some {A} p l (k : Z -> list Z -> option A) x :
  PyDate.re_one p l k = Some x ->
  exists a r, p a = true /\ k (Unicode.int [a]) r = Some x.
Proof.
  unfold PyDate.re_one. destruct l as [|a r]; try discriminate.
  destruct (p a) eqn:Ha; [|discriminate]. eauto.
Qed.

(** [int] on two digits and on one. *)
Lemma int_two (a b va vb : Z) :
  Unicode.decimal a = Some va -> Unicode.decimal b = Some vb ->
  Unicode.int [a; b] = 10 * va + vb.
Proof. intros Ha Hb. unfold Unicode.int. simpl. rewrite Ha, Hb. lia. Qed.

Lemma int_one (a va : Z) :
  Unicode.decimal a = Some va -> Unicode.int [a] = va.
Proof. intros Ha. unfold Unicode.int. simpl. rewrite Ha. lia. Qed.

(** A character of a class between two ASCII digits is that digit. *)
Lemma in_range_decimal (lo hi : ascii) (c : Z) :
  48 <= Chars.code lo -> Chars.code hi <= 57 ->
  PyDate.in_range lo hi c = true ->
  Unicode.decimal c = Some (c - 48) /\ Chars.code lo <= c <= Chars.code hi.
Proof.
  intros Hlo Hhi H. apply in_range_code in H.
  split; [apply decimal_ascii; lia | exact H].
Qed.

Ltac ascii_codes :=
  repeat match goal with
         | H : context [Chars.code ?c] |- _ =>
             let v := eval vm_compute in (Chars.code c) in
             change (Chars.code c) with v in H
         | |- context [Chars.code ?c] =>
             let v := eval vm_compute in (Chars.code c) in
             change (Chars.code c) with v
         end.

(** The literal digit a two-character alternative starts with. *)
Ltac lead_digit Hk Ha :=
  match type of Hk with
  | context [Unicode.int [Chars.code ?ch; _]] =>
      pose proof (decimal_ascii (Chars.code ch)
                    ltac:(vm_compute; split; discriminate)) as Ha
  end.

Lemma re_month_Some {A} l (k : Z -> list Z -> option A) x :
  PyDate.re_month l k = Some x ->
  exists m r, 1 <= m <= 12 /\ k m r = Some x.
Proof.
  unfold PyDate.re_month. intros H.
  apply orelse_Some in H as [H|H]; [|apply orelse_Some in H as [H|H]].
  - apply re_two_Some in H as (a & b & r & Ha & Hb & Hk).
    apply is_char_code in Ha. subst a.
    apply in_range_decimal in Hb as [Hb Hr]; [|vm_compute; discriminate..].
    lead_digit Hk Ha. rewrite (int_two _ _ _ _ Ha Hb) in Hk.
    ascii_codes. eexists _, r. split; [|exact Hk]. lia.
  - apply re_two_Some in H as (a & b & r & Ha & Hb & Hk).
    apply is_char_code in Ha. subst a.
    apply in_range_decimal in Hb as [Hb Hr]; [|vm_compute; discriminate..].
    lead_digit Hk Ha. rewrite (int_two _ _ _ _ Ha Hb) in Hk.
    ascii_codes. eexists _, r. split; [|exact Hk]. lia.
  - apply re_one_Some in H as (a & r & Ha & Hk).
    apply in_range_decimal in Ha as [Ha Hr]; [|vm_compute; discriminate..].
    rewrite (int_one _ _ Ha) in Hk.
    ascii_codes. eexists _, r. split; [|exact Hk]. lia.
Qed.

Lemma re_day_Some {A} l (k : Z -> list Z -> option A) x :
  PyDate.re_day l k = Some x ->
  exists d r, 1 <= d /\ k d r = Some x.
Proof.
  unfold PyDate.re_day. intros H.
  apply orelse_Some in H as [H|H];
    [|apply orelse_Some in H as [H|H];
      [|apply orelse_Some in H as [H|H];
        [|apply orelse_Some in H as [H|H]]]].
  - apply re_two_Some in H as (a & b & r & Ha & Hb & Hk).
    apply is_char_code in Ha. subst a.
    apply in_range_decimal in Hb as [Hb Hr]; [|vm_compute; discriminate..].
    lead_digit Hk Ha. rewrite (int_two _ _ _ _ Ha Hb) in Hk.
    ascii_codes. eexists _, r. split; [|exact Hk]. lia.
  - apply re_two_Some in H as (a & b & r & Ha & Hb & Hk).
    apply in_range_decimal in Ha as [Ha Hr]; [|vm_compute; discriminate..].
    apply is_decimal_value in Hb as (vb & Hb & Hvb).
    rewrite (int_two _ _ _ _ Ha Hb) in Hk.
    ascii_codes. eexists _, r. split; [|exact Hk]. lia.
  - apply re_two_Some in H as (a & b & r & Ha & Hb & Hk).
    apply is_char_code in Ha. subst a.
    apply in_range_decimal in Hb as [Hb Hr]; [|vm_compute; discriminate..].
    lead_digit Hk Ha. rewrite (int_two _ _ _ _ Ha Hb) in Hk.
    ascii_codes. eexists _, r. split; [|exact Hk]. lia.
  - apply re_one_Some in H as (a & r & Ha & Hk).
    apply in_range_decimal in Ha as [Ha Hr]; [|vm_compute; discriminate..].
    rewrite (int_one _ _ Ha) in Hk.
    ascii_codes. eexists _, r. split; [|exact Hk]. lia.
  - apply re_two_Some in H as (a & b & r & Ha & Hb & Hk).
    apply is_char_code in Ha. subst a.
    apply in_range_decimal in Hb as [Hb Hr]; [|vm_compute; discriminate..].
    assert (Unicode.int [Chars.code " "; b] = b - 48) as Hint.
    { unfold Unicode.int. simpl. rewrite Hb.
      change (Unicode.decimal (Chars.code " ")) with (@None Z). lia. }
    rewrite Hint in Hk.
    ascii_codes. eexists _, r. split; [|exact Hk]. lia.
Qed.

(** What [strptime] returns is a date of the calendar. *)
Lemma strptime_valid (s : string) (d : PyDate.date) :
  PyDate.strptime s = Some d ->
  1 <= PyDate.year d /\ 1 <= PyDate.month d <= 12 /\
  1 <= PyDate.day d <= PyDate.days_in_month (PyDate.year d) (PyDate.month d).
Proof.
  unfold PyDate.strptime.
  destruct (PyDate.re_match _) as [[[[y m] dd] rest]|] eqn:E; [|discriminate].
  destruct rest; [|discriminate].
  destruct ((1 <=? y) && (dd <=? PyDate.days_in_month y m)) eqn:Hc;
    [|discriminate].
  intros [= <-]. simpl. apply andb_true_iff in Hc as [Hy Hd].
  unfold PyDate.re_match, PyDate.re_year in E.
  destruct (Unicode.decode (list_ascii_of_string s))
    as [|a [|b [|c [|e l]]]]; try discriminate.
  destruct (_ && _); [|discriminate].
  unfold PyDate.re_dash in E at 1.
  destruct l as [|dash l]; [discriminate|].
  destruct (PyDate.is_char "-" dash); [|discriminate].
  apply re_month_Some in E as (m' & r & Hm & E).
  unfold PyDate.re_dash in E.
  destruct r as [|dash' r]; [discriminate|].
  destruct (PyDate.is_char "-" dash'); [|discriminate].
  apply re_day_Some in E as (d' & r' & Hd' & E).
  injection E as _ <- <- _. lia.
Qed.

Lemma days_before_year_step (y : Z) :
  PyDate.days_before_year (y + 1) =
    PyDate.days_before_year y + (if PyDate.is_leap y then 366 else 365).
Proof.
  unfold PyDate.days_before_year, PyDate.is_leap.
  replace (y + 1 - 1) with y by lia.
  destruct (y mod 4 =? 0) eqn:E4; destruct (y mod 100 =? 0) eqn:E100;
    destruct (y mod 400 =? 0) eqn:E400; simpl;
    rewrite ?Z.eqb_eq, ?Z.eqb_neq in *;
    Z.div_mod_to_equations; lia.
Qed.

Lemma days_before_year_mono (a b : Z) :
  a <= b -> PyDate.days_before_year a <= PyDate.days_before_year b.
Proof.
  intros H. unfold PyDate.days_before_year.
  Z.div_mod_to_equations. lia.
Qed.

Lemma days_before_month_table (y m : Z) :
  1 <= m <= 12 ->
  PyDate.days_before_month y m =
    (if m =? 1 then 0 else if m =? 2 then 31 else
     (if PyDate.is_leap y then 1 else 0) +
     (if m =? 3 then 59 else if m =? 4 then 90 else if m =? 5 then 120
      else if m =? 6 then 151 else if m =? 7 then 181 else if m =? 8 then 212
      else if m =? 9 then 243 else if m =? 10 then 273
      else if m =? 11 then 304 else 334)).
Proof.
  intros Hm.
  assert (m = 1 \/ m = 2 \/ m = 3 \/ m = 4 \/ m = 5 \/ m = 6 \/ m = 7 \/
          m = 8 \/ m = 9 \/ m = 10 \/ m = 11 \/ m = 12) as Hcases by lia.
  repeat (destruct Hcases as [->|Hcases]); [..|subst m];
    unfold PyDate.days_before_month, PyDate.days_in_month; simpl;
    destruct (PyDate.is_leap y); reflexivity.
Qed.

(** The day of the year of a date of the calendar. *)
Lemma day_of_year_bounds (y m d : Z) :
  1 <= m <= 12 -> 1 <= d <= PyDate.days_in_month y m ->
  1 <= PyDate.days_before_month y m + d
    <= (if PyDate.is_leap y then 366 else 365).
Proof.
  intros Hm Hd. rewrite (days_before_month_table y m Hm).
  unfold PyDate.days_in_month in Hd.
  assert (m = 1 \/ m = 2 \/ m = 3 \/ m = 4 \/ m = 5 \/ m = 6 \/ m = 7 \/
          m = 8 \/ m = 9 \/ m = 10 \/ m = 11 \/ m = 12) as Hcases by lia.
  repeat (destruct Hcases as [->|Hcases]); [..|subst m];
    simpl in *; destruct (PyDate.is_leap y); lia.
Qed.

Lemma day_of_year_mono (y m1 d1 m2 d2 : Z) :
  1 <= m1 <= 12 -> 1 <= d1 <= PyDate.days_in_month y m1 ->
  1 <= m2 <= 12 -> 1 <= d2 <= PyDate.days_in_month y m2 ->
  m1 < m2 ->
  PyDate.days_before_month y m1 + d1 < PyDate.days_before_month y m2 + d2.
Proof.
  intros Hm1 Hd1 Hm2 Hd2 Hlt.
  rewrite (days_before_month_table y m1 Hm1), (days_before_month_table y m2 Hm2).
  unfold PyDate.days_in_month in Hd1.
  assert (m1 = 1 \/ m1 = 2 \/ m1 = 3 \/ m1 = 4 \/ m1 = 5 \/ m1 = 6 \/ m1 = 7 \/
          m1 = 8 \/ m1 = 9 \/ m1 = 10 \/ m1 = 11 \/ m1 = 12) as Hcases by lia.
  repeat (destruct Hcases as [->|Hcases]); [..|subst m1];
    simpl in Hd1 |- *;
    repeat (match goal with
            | |- context [?a =? ?b] => destruct (Z.eqb_spec a b)
            end);
    destruct (PyDate.is_leap y); lia.
Qed.

Lemma toordinal_lt (a b : PyDate.date) (sa sb : string) :
  PyDate.strptime sa = Some a -> PyDate.strptime sb = Some b ->
  date_lt a b -> PyDate.toordinal a < PyDate.toordinal b.
Proof.
  intros Ha Hb Hlt.
  destruct (strptime_valid _ _ Ha) as (Hya & Hma & Hda).
  destruct (strptime_valid _ _ Hb) as (Hyb & Hmb & Hdb).
  unfold PyDate.toordinal.
  destruct Hlt as [Hy | [Hy [Hm | [Hm Hd]]]].
  - pose proof (day_of_year_bounds _ _ _ Hma Hda) as Ba.
    pose proof (day_of_year_bounds _ _ _ Hmb Hdb) as Bb.
    pose proof (days_before_year_step (PyDate.year a)) as Hs.
    pose proof (days_before_year_mono (PyDate.year a + 1) (PyDate.year b)
                  ltac:(lia)) as Hmono.
    destruct (PyDate.is_leap (PyDate.year a)); lia.
  - rewrite <- Hy in *.
    pose proof (day_of_year_mono _ _ _ _ _ Hma Hda Hmb Hdb Hm). lia.
  - rewrite <- Hy, <- Hm. lia.
Qed.

(** The number of nights a booking is charged for follows the calendar:
    for two dates that parse it is positive exactly when the checkout is
    a later date than the checkin, zero exactly when they are the same
    date and negative otherwise. *)
Theorem stay_length_follows_the_calendar
    req s client room checkin checkout price d_out d_in total :
  accepted req s client room checkin checkout price d_out d_in total ->
  let total_days := PyDate.days_between d_out d_in in
  (0 < total_days <-> date_lt d_in d_out) /\
  (total_days = 0 <-> d_in = d_out) /\
  (total_days < 0 <-> date_lt d_out d_in).
Proof.
  intros Hacc total_days.
  pose proof (acc_d_out _ _ _ _ _ _ _ _ _ _ Hacc) as Ho.
  pose proof (acc_d_in _ _ _ _ _ _ _ _ _ _ Hacc) as Hi.
  assert (date_lt d_in d_out \/ d_in = d_out \/ date_lt d_out d_in) as Htri.
  { unfold date_lt. destruct d_in as [y1 m1 e1], d_out as [y2 m2 e2]. simpl.
    destruct (Z.lt_trichotomy y1 y2) as [?|[->|?]]; auto.
    destruct (Z.lt_trichotomy m1 m2) as [?|[->|?]]; auto 6.
    destruct (Z.lt_trichotomy e1 e2) as [?|[->|?]]; auto 8. }
  subst total_days. unfold PyDate.days_between.
  pose proof (toordinal_lt d_in d_out _ _ Hi Ho) as H1.
  pose proof (toordinal_lt d_out d_in _ _ Ho Hi) as H2.
  destruct Htri as [Hlt | [-> | Hgt]].
  - specialize (H1 Hlt). repeat split; intros; try lia; try assumption.
    + subst. lia.
    + specialize (H2 ltac:(assumption)). lia.
  - repeat split; intros; try lia; try reflexivity.
    + specialize (H1 ltac:(assumption)). lia.
    + specialize (H2 ltac:(assumption)). lia.
  - specialize (H2 Hgt). repeat split; intros; try lia; try assumption.
    + specialize (H1 ltac:(assumption)). lia.
    + subst. lia.
Qed.

Lemma stay_length_follows_the_calendar_witness :
  0 < PyDate.days_between (PyDate.Date 2026 1 12) (PyDate.Date 2026 1 10) <->
  date_lt (PyDate.Date 2026 1 10) (PyDate.Date 2026 1 12).
Proof.
  exact (proj1 (stay_length_follows_the_calendar _ _ _ _ _ _ _ _ _ _
                  first_booking_accepted)).
Defined.

(** ** Keys as the pages print them *)

Lemma uint_digits_acc (d : Decimal.uint) (acc : positive) :
  fold_left (fun acc c => 10 * acc + Chars.digit_val c)
    (list_ascii_of_string (NilEmpty.string_of_uint d))
    (Zpos acc)
  = Zpos (Pos.of_uint_acc d acc).
Proof.
  revert acc. induction d; intros acc; simpl; [reflexivity|..];
    rewrite <- IHd; f_equal; unfold Chars.digit_val;
    match goal with
    | |- context [Chars.code ?c] =>
        let v := eval vm_compute in (Chars.code c) in
        change (Chars.code c) with v
    end; lia.
Qed.

Lemma uint_digits (d : Decimal.uint) :
  fold_left (fun acc c => 10 * acc + Chars.digit_val c)
    (list_ascii_of_string (NilEmpty.string_of_uint d)) 0
  = Z.of_N (Pos.of_uint d).
Proof.
  induction d; simpl; [reflexivity | exact IHd |..];
    exact (uint_digits_acc d _).
Qed.

Lemma uint_all_digits (d : Decimal.uint) :
  Forall (fun c => Chars.is_digit c = true)
    (list_ascii_of_string (NilEmpty.string_of_uint d)).
Proof. induction d; simpl; constructor; auto. Qed.

Lemma span_all_digits (l : list ascii) :
  Forall (fun c => Chars.is_digit c = true) l -> Chars.span_digits l = (l, []).
Proof.
  induction 1 as [|c l Hc Hl IH]; simpl; [reflexivity|].
  now rewrite Hc, IH.
Qed.

Lemma digit_is_plain (c : ascii) :
  Chars.is_digit c = true ->
  Chars.is_space c = false /\ Ascii.eqb c "-" = false /\ Ascii.eqb c "+" = false.
Proof.
  unfold Chars.is_digit, Chars.is_space. intros H.
  apply andb_true_iff in H as [H1 H2].
  split; [|split].
  - apply orb_false_iff. split; [lia|]. apply andb_false_iff. lia.
  - apply Ascii.eqb_neq. intros ->. vm_compute in H1. discriminate.
  - apply Ascii.eqb_neq. intros ->. vm_compute in H1. discriminate.
Qed.

(** A positive key written in decimal reads back as that key. *)
Lemma key_text_reads_back (id : Z) :
  1 <= id <= int64_max ->
  numeric_affinity_text (Chars.str_of_Z id) = VInt id.
Proof.
  intros [Hlo Hhi]. destruct id as [|p|p]; try lia.
  unfold numeric_affinity_text, parse_numlit, Chars.str_of_Z.
  pose proof (uint_all_digits (Pos.to_uint p)) as Hall.
  pose proof (uint_digits (Pos.to_uint p)) as Hval.
  rewrite Unsigned.of_to in Hval.
  destruct (list_ascii_of_string (NilEmpty.string_of_uint (Pos.to_uint p)))
    as [|c l] eqn:E.
  { exfalso. destruct (Pos.to_uint p) eqn:Ep; try discriminate E.
    now apply (Unsigned.to_uint_nonnil p). }
  inversion Hall as [|? ? Hc Hl]; subst.
  destruct (digit_is_plain c Hc) as (Hs & Hm & Hp).
  simpl Chars.skip_spaces. rewrite Hs. unfold parse_sign. rewrite Hm, Hp.
  rewrite (span_all_digits (c :: l) Hall). simpl.
  unfold lit_value. simpl. unfold Chars.digits_val. rewrite Hval. simpl.
  assert ((Zpos p <=? int64_max) = true) as -> by lia.
  reflexivity.
Qed.

(** On every store the application reaches, the key of a room written
    in decimal, as the booking page sends it, selects that room and no
    other: a booking request that carries it with two dates that parse
    is accepted at the price of that room. *)
Theorem room_key_selects_the_room
    (req : request) (s : store) (r : Store.room) (u : value)
    (client checkin checkout : string) (d_out d_in : PyDate.date)
    (total : value) :
  reachable s ->
  In r (rooms_tbl s) ->
  room_id r <= int64_max ->
  session req !! "user_id" = Some u ->
  method req = POST ->
  form req !! "client_id" = Some client ->
  form req !! "room_id" = Some (Chars.str_of_Z (room_id r)) ->
  form req !! "checkin" = Some checkin ->
  form req !! "checkout" = Some checkout ->
  PyDate.strptime checkout = Some d_out ->
  PyDate.strptime checkin = Some d_in ->
  py_mul (room_price r) (PyDate.days_between d_out d_in) = Some total ->
  (forall r', In r' (rooms_tbl s) ->
     (text_eq_rowid (Chars.str_of_Z (room_id r)) (room_id r') = true <-> r' = r)) /\
  accepted req s client (Chars.str_of_Z (room_id r)) checkin checkout
    (room_price r) d_out d_in total.
Proof.
  intros Hreach Hin Hmax Hu Hm Hc Hr Hi Ho Hdo Hdi Ht.
  pose proof (keyed_rooms s (keyed_reachable s Hreach)) as [Hsorted Hbound].
  assert (1 <= room_id r <= int64_max) as Hid.
  { split; [|exact Hmax].
    apply (proj1 (List.Forall_forall _ _) Hbound (room_id r)).
    now apply in_map. }
  assert (forall id', text_eq_rowid (Chars.str_of_Z (room_id r)) id'
                      = (room_id r =? id')) as Hsel.
  { intros id'. unfold text_eq_rowid. now rewrite (key_text_reads_back _ Hid). }
  assert (forall r', In r' (rooms_tbl s) ->
     (text_eq_rowid (Chars.str_of_Z (room_id r)) (room_id r') = true <-> r' = r))
    as Honly.
  { intros r' Hin'. rewrite Hsel. split.
    - intros H. apply Z.eqb_eq in H. symmetry in H.
      exact (rooms_key_unique s r' r Hreach Hin' Hin H).
    - intros ->. apply Z.eqb_refl. }
  split; [exact Honly|].
  split; eauto.
  unfold select_price.
  destruct (find _ (rooms_tbl s)) as [r0|] eqn:E.
  - apply find_some in E as [Hin0 H0]. apply Honly in H0; [|exact Hin0].
    now subst r0.
  - exfalso. pose proof (find_none _ _ E r Hin) as Hnone. simpl in Hnone.
    rewrite Hsel, Z.eqb_refl in Hnone. discriminate Hnone.
Qed.

Lemma room_key_selects_the_room_witness :
  accepted (Examples.book "1" "1" "2026-01-10" "2026-01-12") Examples.desk
    "1" "1" "2026-01-10" "2026-01-12" (VReal (PyFloat.of_Z 100))
    (PyDate.Date 2026 1 12) (PyDate.Date 2026 1 10) (VReal (PyFloat.of_Z 200)).
Proof.
  assert (In (Room 1 "101" "Standard" (VReal (PyFloat.of_Z 100)) Disponible)
            (rooms_tbl Examples.desk)) as Hin
    by (left; vm_compute; reflexivity).
  assert (1 <= int64_max) as Hmax by (vm_compute; discriminate).
  exact (proj2 (room_key_selects_the_room
                  (Examples.book "1" "1" "2026-01-10" "2026-01-12")
                  Examples.desk _ (VInt 1) "1" "2026-01-10" "2026-01-12"
                  (PyDate.Date 2026 1 12) (PyDate.Date 2026 1 10)
                  (VReal (PyFloat.of_Z 200))
                  desk_reachable Hin Hmax eq_refl eq_refl eq_refl eq_refl
                  eq_refl eq_refl eq_refl eq_refl eq_refl)).
Defined.
